(** * adjust-exif.py: geotagging photographs from recorded GPX tracks

    A shallow embedding of [src/adjust-exif.py].  The Python functions
    [datetime_to_exif], [gpx_to_exif], [interpolate], [adjust_image] and
    [adjust_main] become Rocq functions of the same names.

    - Python [float] is IEEE binary64: the kernel's primitive floats.
    - Python [int] is [Z].
    - An aware [datetime] is the instant it denotes, counted in
      microseconds since 1970-01-01T00:00:00Z; comparison, hashing and
      subtraction of aware datetimes only look at that instant.
    - A raised exception is the [Raise] branch of [result].
    - The dictionary [gpx_points] is a [gmap] keyed by the instant. *)

From Stdlib Require Import ZArith List Ascii String Bool Lia.
From Stdlib Require Import PrimFloat SpecFloat FloatOps FloatAxioms.
From stdpp Require Import gmap sorting.

Open Scope string_scope.
Open Scope list_scope.
Open Scope Z_scope.

(** ** Exceptions and fallible computations *)

Module Py.

Inductive exn_class :=
| AssertionError
| ZeroDivisionError
| TypeError
| ValueError
| OverflowError
| KeyError
| AttributeError
| RuntimeError
| NotImplementedError
| RecursionError.

Record exn := Exn { exn_kind : exn_class; exn_msg : string }.

(** [except RuntimeError] catches the class and its subclasses. *)
Definition is_RuntimeError (e : exn) : bool :=
  match exn_kind e with
  | RuntimeError | NotImplementedError | RecursionError => true
  | _ => false
  end.

Inductive result (A : Type) :=
| Ok (a : A)
| Raise (e : exn).
Arguments Ok {A} a.
Arguments Raise {A} e.

#[export] Instance result_ret : MRet result := fun A a => Ok a.
#[export] Instance result_bind : MBind result := fun A B f m =>
  match m with
  | Ok a => f a
  | Raise e => Raise e
  end.

(** *** Numbers *)

(** [float(z)] for an [int] operand of a mixed [float]/[int] operation:
    the nearest binary64 value, ties to even.  Python raises
    [OverflowError] beyond the binary64 range; every [int] converted in
    this program is the integral part of a finite float or a count below
    86400, so that case is left as infinity. *)
Definition float_of_int (z : Z) : float :=
  SF2Prim (binary_normalize prec emax z 0 false).

(** The integral part of a finite binary64 value, rounded towards zero,
    and whether a fractional part was dropped. *)
Definition integral_part (m : positive) (e : Z) : Z * bool :=
  if 0 <=? e then (Z.shiftl (Z.pos m) e, false)
  else (Z.shiftr (Z.pos m) (- e),
        negb (Z.pos m mod 2 ^ (- e) =? 0)).

(** [int(x)] on a float: truncation towards zero. *)
Definition int (x : float) : result Z :=
  match Prim2SF x with
  | S754_zero _ => Ok 0
  | S754_finite s m e =>
      let '(q, _) := integral_part m e in
      Ok (if s then - q else q)
  | S754_infinity _ =>
      Raise (Exn OverflowError "cannot convert float infinity to integer")
  | S754_nan =>
      Raise (Exn ValueError "cannot convert float NaN to integer")
  end.

(** [math.ceil(x)]: the least [int] not below [x]. *)
Definition ceil (x : float) : result Z :=
  match Prim2SF x with
  | S754_zero _ => Ok 0
  | S754_finite s m e =>
      let '(q, frac) := integral_part m e in
      Ok (if s then - q else if frac then q + 1 else q)
  | S754_infinity _ =>
      Raise (Exn OverflowError "cannot convert float infinity to integer")
  | S754_nan =>
      Raise (Exn ValueError "cannot convert float NaN to integer")
  end.

(** [x / y] on floats: a zero divisor raises instead of giving
    infinity or NaN. *)
Definition truediv (x y : float) : result float :=
  if (y =? 0)%float
  then Raise (Exn ZeroDivisionError "float division by zero")
  else Ok (x / y)%float.

(** Truth value of a float: [x != 0.0]. *)
Definition float_bool (x : float) : bool := negb (x =? 0)%float.

(** Truth value of an optional float: [None] is false. *)
Definition truthy (x : option float) : bool :=
  match x with
  | None => false
  | Some v => float_bool v
  end.

(** [x > 0] with a float on the left and the [int] 0 on the right. *)
Definition gt0 (x : float) : bool := (0 <? x)%float.

(** Decimal rendering of a non-negative [int], as [str] does. *)
Fixpoint digits (fuel : nat) (n : Z) (acc : string) : string :=
  match fuel with
  | O => acc
  | S fuel' =>
      let d := String (Ascii.ascii_of_N (Z.to_N (48 + n mod 10))) acc in
      if n / 10 =? 0 then d else digits fuel' (n / 10) d
  end.

Definition str (n : Z) : string :=
  if n <? 0 then String "-"%char (digits (Z.to_nat (Z.log2 (- n)) + 1) (- n) "")
  else digits (Z.to_nat (Z.log2 n) + 1) n "".

(** The format specification [{n:02d}]. *)
Definition str02 (n : Z) : string :=
  if (0 <=? n) && (n <? 10) then String "0"%char (str n) else str n.

End Py.

Export Py.

(** ** Date and time *)

(** The proleptic Gregorian calendar of Python's [datetime]; all
    datetimes of the program are aware and in UTC ([SimpleTZ("Z")]). *)
Module DateTime.

Abbreviation datetime := Z (only parsing).
Abbreviation timedelta := Z (only parsing).

Definition us_per_second : Z := 1000000.
Definition us_per_day : Z := 86400 * us_per_second.

(** Days from 1970-01-01 to the civil date [y]-[m]-[d]. *)
Definition days_from_civil (y m d : Z) : Z :=
  let y' := if m <=? 2 then y - 1 else y in
  let era := y' / 400 in
  let yoe := y' - era * 400 in
  let doy := (153 * (if 2 <? m then m - 3 else m + 9) + 2) / 5 + d - 1 in
  let doe := yoe * 365 + yoe / 4 - yoe / 100 + doy in
  era * 146097 + doe - 719468.

(** The civil date of a day count. *)
Definition civil_from_days (z : Z) : Z * Z * Z :=
  let z' := z + 719468 in
  let era := z' / 146097 in
  let doe := z' - era * 146097 in
  let yoe := (doe - doe / 1460 + doe / 36524 - doe / 146096) / 365 in
  let doy := doe - (365 * yoe + yoe / 4 - yoe / 100) in
  let mp := (5 * doy + 2) / 153 in
  let d := doy - (153 * mp + 2) / 5 + 1 in
  let m := if mp <? 10 then mp + 3 else mp - 9 in
  (if m <=? 2 then yoe + era * 400 + 1 else yoe + era * 400, m, d).

(** [datetime(y, mo, d, h, mi, s, us, tzinfo=SimpleTZ("Z"))]. *)
Definition mk_datetime (y mo d h mi s us : Z) : datetime :=
  (((days_from_civil y mo d * 24 + h) * 60 + mi) * 60 + s) * us_per_second
  + us.

Definition year (dt : datetime) : Z := (civil_from_days (dt / us_per_day)).1.1.
Definition month (dt : datetime) : Z := (civil_from_days (dt / us_per_day)).1.2.
Definition day (dt : datetime) : Z := (civil_from_days (dt / us_per_day)).2.
Definition hour (dt : datetime) : Z := (dt / (3600 * us_per_second)) mod 24.
Definition minute (dt : datetime) : Z := (dt / (60 * us_per_second)) mod 60.
Definition second (dt : datetime) : Z := (dt / us_per_second) mod 60.

(** [timedelta(hours=h)]. *)
Definition timedelta_hours (h : Z) : timedelta := h * 3600 * us_per_second.

(** [a - b] on datetimes. *)
Definition dt_sub (a b : datetime) : timedelta := a - b.

(** [dt + td]. *)
Definition dt_add (dt : datetime) (td : timedelta) : datetime := dt + td.

(** [td.seconds]: the seconds field of the normalised
    (days, seconds, microseconds) representation, between 0 and 86399.
    The days and the microseconds are separate fields. *)
Definition seconds (td : timedelta) : Z := (td / us_per_second) mod 86400.

(** [td.days], for comparison. *)
Definition days (td : timedelta) : Z := td / us_per_day.

(** [td.total_seconds()] would be [td / us_per_second] as a float. *)

End DateTime.

Export DateTime.

(** ** The coordinate codec *)

Definition Path := string.

Record GPSDateTime := {
  timestamp : float * float * float;
  datestamp : string
}.

(** [datetime_to_exif(dt, tz_adjust)], lines 28-42. *)
Definition datetime_to_exif (dt : datetime) (tz_adjust : Z) : GPSDateTime :=
  {| timestamp := ((1.0 * float_of_int (hour dt + tz_adjust))%float,
                   (1.0 * float_of_int (minute dt))%float,
                   (1.0 * float_of_int (second dt))%float);
     datestamp := String.append (str (year dt))
                    (String.append ":"
                       (String.append (str02 (month dt))
                          (String.append ":" (str02 (day dt))))) |}.

(** [gpx_to_exif(c)], lines 45-69. *)
Definition gpx_to_exif (c : float) : result (float * float * float) :=
  let a := abs c in
  h ← int a;
  m ← int (60 * (a - float_of_int h))%float;
  s ← ceil (3600 * (a - (float_of_int h + float_of_int m / 60.0)))%float;
  sign ← truediv a c;
  mret ((sign * float_of_int h)%float,
        (1.0 * float_of_int m)%float,
        (1.0 * float_of_int s)%float).

(** ** Track points *)

(** The fields of gpxpy's [GPXTrackPoint] that the program reads or
    writes.  [GPXData] keys the index by [point.time] as a [datetime], so
    a point of the index always has a time. *)
Record GPXTrackPoint := {
  latitude : float;
  longitude : float;
  elevation : option float;
  time : datetime;
  symbol : option string;
  comment : option string;
  horizontal_dilution : option float;
  vertical_dilution : option float;
  position_dilution : option float;
  speed : option float;
  name : option string
}.

Definition option_eqb {A : Type} (eqb : A -> A -> bool) (x y : option A) : bool :=
  match x, y with
  | None, None => true
  | Some a, Some b => eqb a b
  | _, _ => false
  end.

(** Two float fields hold the same value when they are the same float or
    compare equal with [==]: 0.0 and -0.0 compare equal, and a NaN is the
    same value as itself. *)
Definition float_same (x y : float) : bool :=
  PrimFloat.Leibniz.eqb x y || PrimFloat.eqb x y.

(** Modelled from the spec: [before == after] on two [GPXTrackPoint]s is
    decided by gpxpy, which is not among the sources; section 4.3 reads it
    as "the identical sample (same timestamp and values)".  One object
    compared with itself is equal under that reading as under object
    identity, and two points stored under different keys of the index
    differ in [time]. *)
Definition GPXTrackPoint_eqb (p q : GPXTrackPoint) : bool :=
  float_same (latitude p) (latitude q)
  && float_same (longitude p) (longitude q)
  && option_eqb float_same (elevation p) (elevation q)
  && (time p =? time q)
  && option_eqb String.eqb (symbol p) (symbol q)
  && option_eqb String.eqb (comment p) (comment q)
  && option_eqb float_same (horizontal_dilution p) (horizontal_dilution q)
  && option_eqb float_same (vertical_dilution p) (vertical_dilution q)
  && option_eqb float_same (position_dilution p) (position_dilution q)
  && option_eqb float_same (speed p) (speed q)
  && option_eqb String.eqb (name p) (name q).

(** ** The interpolator *)

(** The condition of the [assert] on line 101. *)
Definition interpolate_pre (before after : GPXTrackPoint) (dt : datetime) : bool :=
  (time before <=? dt) && (dt <=? time after).

(** The ratio of line 106:
    [1.0 * (dt - before.time).seconds / (after.time - before.time).seconds]. *)
Definition interpolate_ratio (before after : GPXTrackPoint) (dt : datetime)
  : result float :=
  truediv (1.0 * float_of_int (seconds (dt_sub dt (time before))))%float
          (float_of_int (seconds (dt_sub (time after) (time before)))).

(** The [elevation=] argument, lines 111-115: a float minus [None] is a
    [TypeError]. *)
Definition interpolate_elevation (before after : GPXTrackPoint) (ratio : float)
  : result (option float) :=
  if truthy (elevation before) then
    match elevation before, elevation after with
    | Some be, Some ae => Ok (Some (be + ratio * (ae - be))%float)
    | _, _ =>
        Raise (Exn TypeError
                 "unsupported operand type(s) for -: 'NoneType' and 'float'")
    end
  else Ok None.

(** [interpolate(before, after, dt)], lines 72-124. *)
Definition interpolate (before after : GPXTrackPoint) (dt : datetime)
  : result GPXTrackPoint :=
  if negb (interpolate_pre before after dt)
  then Raise (Exn AssertionError "before <= dt <= after")
  else if GPXTrackPoint_eqb before after then Ok before
  else
    ratio ← interpolate_ratio before after dt;
    elevation' ← interpolate_elevation before after ratio;
    mret {| latitude :=
              (latitude before + ratio * (latitude after - latitude before))%float;
            longitude :=
              (longitude before + ratio * (longitude after - longitude before))%float;
            elevation := elevation';
            time := dt;
            symbol := symbol before;
            comment := comment before;
            horizontal_dilution := horizontal_dilution before;
            vertical_dilution := vertical_dilution before;
            position_dilution := position_dilution before;
            speed := speed before;
            name := name before |}.

(** ** The track index *)

(** What [gpxpy.parse] returns: tracks of segments of points. *)
Record GPXTrackSegment := { points : list GPXTrackPoint }.
Record GPXTrack := { segments : list GPXTrackSegment }.
Record GPX := { tracks : list GPXTrack }.

(** [GPXData = Dict[datetime, Tuple[GPXTrackPoint, Path]]], line 15. *)
Abbreviation GPXData := (gmap Z (GPXTrackPoint * Path)) (only parsing).

(** [compute_gpx_stats], lines 18-19: a stub. *)
Definition compute_gpx_stats (gpx_points : GPXData) (stats_file : Path) : unit := tt.

(** Lines 179-180, the body of the innermost loop. *)
Definition load_point (gpx_file : Path) (st : GPXData * list datetime)
    (point : GPXTrackPoint) : GPXData * list datetime :=
  (<[time point := (point, gpx_file)]> st.1, st.2 ++ [time point]).

(** Lines 176-180, the loops over tracks, segments and points. *)
Definition load_segment (gpx_file : Path) (st : GPXData * list datetime)
    (segment : GPXTrackSegment) : GPXData * list datetime :=
  fold_left (load_point gpx_file) (points segment) st.

Definition load_track (gpx_file : Path) (st : GPXData * list datetime)
    (track : GPXTrack) : GPXData * list datetime :=
  fold_left (load_segment gpx_file) (segments track) st.

Definition load_gpx (st : GPXData * list datetime) (file : Path * GPX)
    : GPXData * list datetime :=
  fold_left (load_track file.1) (tracks file.2) st.

(** Lines 170-180: [gpx_files] are the parsed files in the order
    [sorted(Path(gpx_dir).glob(...))] lists them. *)
Definition load_gpx_files (gpx_files : list (Path * GPX)) : GPXData * list datetime :=
  fold_left load_gpx gpx_files (∅, []).

(** The points of the files, each with the file it comes from, in the
    order in which the loops of lines 172-178 reach them. *)
Definition points_in_order (gpx_files : list (Path * GPX))
    : list (GPXTrackPoint * Path) :=
  concat (map (fun file : Path * GPX =>
                 map (fun point => (point, file.1))
                   (concat (map points (concat (map segments (tracks file.2))))))
              gpx_files).

(** Lines 179-180 on one entry of [points_in_order]. *)
Definition file_entry (st : gmap Z (GPXTrackPoint * Path) * list Z)
    (entry : GPXTrackPoint * Path) : gmap Z (GPXTrackPoint * Path) * list Z :=
  load_point entry.2 st entry.1.

(** [sorted(xs)] on datetimes: a new list in ascending order; the
    argument is left as it is. *)
Definition sorted (xs : list datetime) : list datetime := merge_sort Z.le xs.

(** Lines 212-219: the scan for the two timestamps around [exif_dt].
    [before] is the value of the variable [before] on entry. *)
Fixpoint bracket_scan (used_dts : list datetime) (exif_dt : datetime)
    (before : option datetime) : option datetime * option datetime :=
  match used_dts with
  | [] => (before, None)
  | u :: rest =>
      let before := if u <=? exif_dt then Some u else before in
      if u >=? exif_dt then (before, Some u)
      else bracket_scan rest exif_dt before
  end.

Definition bracket (used_dts : list datetime) (exif_dt : datetime)
    : option datetime * option datetime :=
  bracket_scan used_dts exif_dt None.

(** [gpx_points[key][0]], a [KeyError] when the key is missing. *)
Definition getitem0 (gpx_points : GPXData) (key : datetime) : result GPXTrackPoint :=
  match gpx_points !! key with
  | Some entry => Ok entry.1
  | None => Raise (Exn KeyError "")
  end.

(** Every entry of [gpx_points] is filed under the time of its point, and
    every timestamp of [used_dts] is a key of [gpx_points]. *)
Definition index_ok (st : gmap Z (GPXTrackPoint * Path) * list Z) : Prop :=
  (forall k p f, st.1 !! k = Some (p, f) -> time p = k)
  /\ (forall u, u ∈ st.2 -> is_Some (st.1 !! u)).

(** *** The bracket in the words of the specification *)

(** The chronologically last sample at or before [q] among [ts]. *)
Definition lastSampleAtOrBefore (ts : list datetime) (q : datetime) : option datetime :=
  fold_right (fun u best =>
                if u <=? q then
                  match best with
                  | Some b => Some (Z.max u b)
                  | None => Some u
                  end
                else best) None ts.

(** The chronologically first sample at or after [q] among [ts]. *)
Definition firstSampleAtOrAfter (ts : list datetime) (q : datetime) : option datetime :=
  fold_right (fun u best =>
                if u >=? q then
                  match best with
                  | Some b => Some (Z.min u b)
                  | None => Some u
                  end
                else best) None ts.

(** ** Writing the attributes and the run over the photographs *)

(** The values handed to [img.set]. *)
Inductive exif_value :=
| VInt (z : Z)
| VStr (s : string)
| VTriple (t : float * float * float)
| VFloat (x : float).

(** The hemisphere letters and the altitude reference, the conditional
    expressions of lines 148, 150 and 152. *)
Definition latitude_ref (lat : float) : string := if gt0 lat then "N" else "S".
Definition longitude_ref (lon : float) : string := if gt0 lon then "E" else "W".
Definition altitude_ref (ele : float) : Z := if gt0 ele then 0 else -1.

Section Orchestration.

(** The [exif] package is not part of the sources: its [Image] and the
    effect of [img.set(attribute, value)], which either changes the image
    or raises, are parameters. *)
Variable Image : Type.
Variable img_set : Image -> string -> exif_value -> result Image.

(** [adjust_image(img, point)], lines 127-156.  [None > 0] on line 152
    is a [TypeError]. *)
Definition adjust_image (img : Image) (point : GPXTrackPoint) : result Image :=
  img ← img_set img "gps_version_id" (VInt 2);
  img ← img_set img "gps_latitude_ref" (VStr (latitude_ref (latitude point)));
  lat ← gpx_to_exif (latitude point);
  img ← img_set img "gps_latitude" (VTriple lat);
  img ← img_set img "gps_longitude_ref" (VStr (longitude_ref (longitude point)));
  lon ← gpx_to_exif (longitude point);
  img ← img_set img "gps_longitude" (VTriple lon);
  ele ← match elevation point with
        | Some e => Ok e
        | None =>
            Raise (Exn TypeError
                     "'>' not supported between instances of 'NoneType' and 'int'")
        end;
  img ← img_set img "gps_altitude_ref" (VInt (altitude_ref ele));
  img ← img_set img "gps_altitude" (VFloat ele);
  let ts := datetime_to_exif (time point) 0 in
  img ← img_set img "gps_timestamp" (VTriple (timestamp ts));
  img_set img "gps_datestamp" (VStr (datestamp ts)).

(** A photograph as lines 193-209 read it: the file, the parsed image and
    the [datetime] built from its "datetime_digitized" attribute. *)
Record Photo := {
  img_file : Path;
  img : Image;
  datetime_digitized : datetime
}.

(** What a run does to the outside: lines printed and files written. *)
Inductive event :=
| PrintArgs
| PrintProcessingGPX (gpx_file : Path)
| PrintGPXCount (n : nat)
| PrintProcessingImage (f : Path)
| PrintSkipping (f : Path)
| PrintDT (exif_dt before after : datetime)
| PrintError (f : Path) (e : exn)
| WriteFile (f : Path) (content : Image).

(** Lines 226-230: the expression under [try]. *)
Definition try_adjust (gpx_points : GPXData) (before after exif_dt : datetime)
    (photo : Photo) : result Image :=
  pb ← getitem0 gpx_points before;
  pa ← getitem0 gpx_points after;
  point ← interpolate pb pa exif_dt;
  adjust_image (img photo) point.

(** Lines 190-238, one turn of the loop over the photographs: the events
    it causes, and the exception that leaves the loop, if any. *)
Definition process_image (gpx_points : GPXData) (used_dts : list datetime)
    (timezone_adjustment : Z) (photo : Photo) : list event * option exn :=
  let exif_dt :=
    dt_add (datetime_digitized photo) (timedelta_hours timezone_adjustment) in
  match bracket used_dts exif_dt with
  | (Some before, Some after) =>
      let printed := [PrintProcessingImage (img_file photo);
                      PrintDT exif_dt before after] in
      match try_adjust gpx_points before after exif_dt photo with
      | Ok img' => (printed ++ [WriteFile (img_file photo) img'], None)
      | Raise e =>
          if is_RuntimeError e
          then (printed ++ [PrintError (img_file photo) e], None)
          else (printed, Some e)
      end
  | _ =>
      ([PrintProcessingImage (img_file photo); PrintSkipping (img_file photo)],
       None)
  end.

(** Line 189: the loop; an exception that is not caught ends it. *)
Fixpoint process_images (gpx_points : GPXData) (used_dts : list datetime)
    (timezone_adjustment : Z) (photos : list Photo) : list event * option exn :=
  match photos with
  | [] => ([], None)
  | photo :: rest =>
      match process_image gpx_points used_dts timezone_adjustment photo with
      | (events, Some e) => (events, Some e)
      | (events, None) =>
          let '(events', raised) :=
            process_images gpx_points used_dts timezone_adjustment rest in
          (events ++ events', raised)
      end
  end.

(** [adjust_main], lines 159-238.  [photos] are the files of
    [sorted(Path(img_dir).glob(...))] in that order.  Line 187 sorts a
    copy and drops it: the loop runs over [used_dts] in the order of
    insertion. *)
Definition adjust_main (gpx_files : list (Path * GPX)) (photos : list Photo)
    (stats_file : string) (timezone_adjustment : Z) : list event * option exn :=
  let '(gpx_points, used_dts) := load_gpx_files gpx_files in
  let _ := if negb (String.eqb stats_file "")
           then compute_gpx_stats gpx_points stats_file else tt in
  let _ := sorted used_dts in
  let '(events, raised) :=
    process_images gpx_points used_dts timezone_adjustment photos in
  (PrintArgs :: map (fun f => PrintProcessingGPX f.1) gpx_files
     ++ PrintGPXCount (size gpx_points) :: events,
   raised).

End Orchestration.

Arguments img_file {Image} _.
Arguments img {Image} _.
Arguments datetime_digitized {Image} _.
Arguments PrintArgs {Image}.
Arguments PrintProcessingGPX {Image} _.
Arguments PrintGPXCount {Image} _.
Arguments PrintProcessingImage {Image} _.
Arguments PrintSkipping {Image} _.
Arguments PrintDT {Image} _ _ _.
Arguments PrintError {Image} _ _.
Arguments WriteFile {Image} _ _.

(** ** Calendar dates *)

(** The Gregorian leap years and the lengths of the months, as
    [datetime] checks a day against them. *)
Definition is_leap (y : Z) : bool :=
  (y mod 4 =? 0) && (negb (y mod 100 =? 0) || (y mod 400 =? 0)).

Definition days_in_month (y m : Z) : Z :=
  if m =? 2 then (if is_leap y then 29 else 28)
  else if (m =? 4) || (m =? 6) || (m =? 9) || (m =? 11) then 30 else 31.

(** ** Reading the time of a photograph *)

(** [s.split(sep)] for a separator of one character: the pieces between
    the separators, empty pieces included; never an empty list. *)
Fixpoint split (sep : ascii) (s : string) : list string :=
  match s with
  | EmptyString => [EmptyString]
  | String c rest =>
      if Ascii.eqb c sep then EmptyString :: split sep rest
      else match split sep rest with
           | piece :: pieces => String c piece :: pieces
           | [] => [String c EmptyString]
           end
  end.

(** Reading raises what [int], [datetime] and [+] raise, and
    [IndexError] for a subscript out of range. *)
Inductive read_exn :=
| IndexError
| Raised (e : exn).

Inductive reading (A : Type) :=
| Got (a : A)
| Stop (e : read_exn).
Arguments Got {A} a.
Arguments Stop {A} e.

#[export] Instance reading_ret : MRet reading := fun A a => Got a.
#[export] Instance reading_bind : MBind reading := fun A B f m =>
  match m with
  | Got a => f a
  | Stop e => Stop e
  end.

(** [xs[i]] for a literal index. *)
Definition subscript {A : Type} (xs : list A) (i : nat) : reading A :=
  match xs !! i with
  | Some x => Got x
  | None => Stop IndexError
  end.

Definition lift {A : Type} (r : result A) : reading A :=
  match r with
  | Ok a => Got a
  | Raise e => Stop (Raised e)
  end.

Section Reading.

(** Of the interpreter and its library: [int] on a string; the
    constructor [datetime(y, mo, d, h, mi, s, tzinfo=SimpleTZ("Z"))], which
    checks the ranges of its arguments; and
    [dt + timedelta(hours=h)], which when it returns gives
    [dt_add dt (timedelta_hours h)] and raises beyond the years
    1 to 9999. *)
Variable int_of_str : string -> result Z.
Variable datetime_new : Z -> Z -> Z -> Z -> Z -> Z -> result Z.
Variable add_hours : Z -> Z -> result Z.

(** Lines 197-211: from the value of [img.get("datetime_digitized", "")]
    to the [datetime] of lines 201-209, once line 210 has added the
    adjustment to it without raising. *)
Definition read_digitized (digitized : string) (timezone_adjustment : Z)
    : reading Z :=
  let parts := split " " digitized in
  p0 ← subscript parts 0;
  let d_p := split ":" p0 in
  p1 ← subscript parts 1;
  let t_p := split ":" p1 in
  d0 ← subscript d_p 0; y ← lift (int_of_str d0);
  d1 ← subscript d_p 1; mo ← lift (int_of_str d1);
  d2 ← subscript d_p 2; d ← lift (int_of_str d2);
  t0 ← subscript t_p 0; h ← lift (int_of_str t0);
  t1 ← subscript t_p 1; mi ← lift (int_of_str t1);
  t2 ← subscript t_p 2; s ← lift (int_of_str t2);
  dt ← lift (datetime_new y mo d h mi s);
  _ ← lift (add_hours dt timezone_adjustment);
  mret dt.

Variable Image : Type.
Variable img_set : Image -> string -> exif_value -> result Image.

(** A photograph before it is read: the file, the image that
    [Image(img_fh)] returned and the value of its "datetime_digitized"
    attribute, the empty string when the attribute is missing. *)
Record File := {
  path : Path;
  image : Image;
  digitized : string
}.



End Reading.

Arguments path {Image} _.
Arguments image {Image} _.
Arguments digitized {Image} _.

(** ** The run over the files of the photographs, line by line *)

Section CompleteRun.

Variable int_of_str : string -> result Z.
Variable datetime_new : Z -> Z -> Z -> Z -> Z -> Z -> result Z.
Variable add_hours : Z -> Z -> result Z.
Variable Image : Type.
Variable img_set : Image -> string -> exif_value -> result Image.

(** A photograph once [Image(img_fh)] has returned on line 194: the file
    with its image and its "datetime_digitized" value, and what the
    attribute access [img.exif_version] of line 195 gives, the version or
    an exception. *)
Record Opened := {
  opened : File Image;
  exif_version : result string
}.

(** What a run prints and writes, the line of line 195 included. *)
Inductive output :=
| Out (e : event Image)
| PrintVersion (f : Path) (version : string).

(** Lines 190-238 for one photograph: the output it causes and the
    exception that leaves the loop, if any.  Lines 193-211 are outside the
    [try]. *)
Definition process_opened (gpx_points : GPXData) (used_dts : list datetime)
    (timezone_adjustment : Z) (o : Opened) : list output * option read_exn :=
  let img_file := path (opened o) in
  match exif_version o with
  | Raise e => ([Out (PrintProcessingImage img_file)], Some (Raised e))
  | Ok version =>
      let printed := [Out (PrintProcessingImage img_file);
                      PrintVersion img_file version] in
      match read_digitized int_of_str datetime_new add_hours
              (digitized (opened o)) timezone_adjustment with
      | Stop e => (printed, Some e)
      | Got dt =>
          let exif_dt := dt_add dt (timedelta_hours timezone_adjustment) in
          match bracket used_dts exif_dt with
          | (Some before, Some after) =>
              let printed := printed ++ [Out (PrintDT exif_dt before after)] in
              match try_adjust Image img_set gpx_points before after exif_dt
                      {| img_file := img_file; img := image (opened o);
                         datetime_digitized := dt |} with
              | Ok img' => (printed ++ [Out (WriteFile img_file img')], None)
              | Raise e =>
                  if is_RuntimeError e
                  then (printed ++ [Out (PrintError img_file e)], None)
                  else (printed, Some (Raised e))
              end
          | _ => (printed ++ [Out (PrintSkipping img_file)], None)
          end
      end
  end.

(** Line 189: the loop. *)
Fixpoint process_all (gpx_points : GPXData) (used_dts : list datetime)
    (timezone_adjustment : Z) (files : list Opened)
    : list output * option read_exn :=
  match files with
  | [] => ([], None)
  | o :: rest =>
      match process_opened gpx_points used_dts timezone_adjustment o with
      | (outs, Some e) => (outs, Some e)
      | (outs, None) =>
          let '(outs', raised) :=
            process_all gpx_points used_dts timezone_adjustment rest in
          (outs ++ outs', raised)
      end
  end.

(** [adjust_main], lines 159-238, over the files of the photographs. *)
Definition adjust_main_files (gpx_files : list (Path * GPX))
    (files : list Opened) (stats_file : string) (timezone_adjustment : Z)
    : list output * option read_exn :=
  let '(gpx_points, used_dts) := load_gpx_files gpx_files in
  let _ := if negb (String.eqb stats_file "")
           then compute_gpx_stats gpx_points stats_file else tt in
  let _ := sorted used_dts in
  let '(outs, raised) :=
    process_all gpx_points used_dts timezone_adjustment files in
  (Out PrintArgs :: map (fun f => Out (PrintProcessingGPX f.1)) gpx_files
     ++ Out (PrintGPXCount (size gpx_points)) :: outs,
   raised).

(** The output without the lines of line 195. *)
Definition without_version (outs : list output) : list (event Image) :=
  omap (fun o => match o with
                 | Out e => Some e
                 | PrintVersion _ _ => None
                 end) outs.

(** The three lines of a skipped photograph. *)
Definition skip_lines (o : Opened) : list output :=
  match exif_version o with
  | Ok version => [Out (PrintProcessingImage (path (opened o)));
                   PrintVersion (path (opened o)) version;
                   Out (PrintSkipping (path (opened o)))]
  | Raise _ => []
  end.

End CompleteRun.

Arguments opened {Image} _.
Arguments exif_version {Image} _.
Arguments Out {Image} e.
Arguments PrintVersion {Image} f version.

(** Instances of the three parameters for the examples: [int] on
    strings of decimal digits only, anything else refused; *)
Fixpoint int_of_digits (acc : Z) (s : string) : result Z :=
  match s with
  | EmptyString => Ok acc
  | String c rest =>
      let n := Z.of_N (Ascii.N_of_ascii c) in
      if (48 <=? n) && (n <=? 57) then int_of_digits (10 * acc + (n - 48)) rest
      else Raise (Exn ValueError "invalid literal for int() with base 10")
  end.

Definition int_of_plain_str (s : string) : result Z :=
  match s with
  | EmptyString => Raise (Exn ValueError "invalid literal for int() with base 10")
  | _ => int_of_digits 0 s
  end.

(** [datetime(...)] with the range checks of the calendar; *)
Definition datetime_checked (y mo d h mi s : Z) : result Z :=
  if (1 <=? y) && (y <=? 9999) && (1 <=? mo) && (mo <=? 12)
     && (1 <=? d) && (d <=? days_in_month y mo)
     && (0 <=? h) && (h <? 24) && (0 <=? mi) && (mi <? 60)
     && (0 <=? s) && (s <? 60)
  then Ok (mk_datetime y mo d h mi s 0)
  else Raise (Exn ValueError "argument out of range").

(** [dt + timedelta(hours=h)] within the years 1 to 9999. *)
Definition add_hours_checked (dt h : Z) : result Z :=
  let sum := dt_add dt (timedelta_hours h) in
  if (mk_datetime 1 1 1 0 0 0 0 <=? sum)
     && (sum <=? mk_datetime 9999 12 31 23 59 59 999999)
  then Ok sum
  else Raise (Exn OverflowError "date value out of range").

(** ** Sample data *)

(** A track point with position, elevation and time only. *)
Definition sample (lat lon : float) (ele : option float) (t : datetime)
    : GPXTrackPoint :=
  {| latitude := lat; longitude := lon; elevation := ele; time := t;
     symbol := None; comment := None; horizontal_dilution := None;
     vertical_dilution := None; position_dilution := None; speed := None;
     name := None |}.

(** A GPX file of one track with one segment. *)
Definition gpx_of (pts : list GPXTrackPoint) : GPX :=
  {| tracks := [ {| segments := [ {| points := pts |} ] |} ] |}.

(** An image that is the list of the attributes set so far, with three
    writers: one that accepts every value, one that rejects every value
    with a [ValueError], one that rejects every value with a
    [RuntimeError]. *)
Abbreviation Attrs := (list (string * exif_value)) (only parsing).

Definition store_set (img : Attrs) (attribute : string) (value : exif_value)
    : result Attrs :=
  Ok (img ++ [(attribute, value)]).

Definition reject_set (img : Attrs) (attribute : string) (value : exif_value)
    : result Attrs :=
  Raise (Exn ValueError "value rejected").

Definition refuse_set (img : Attrs) (attribute : string) (value : exif_value)
    : result Attrs :=
  Raise (Exn RuntimeError "cannot set attribute").

(** 2021-08-02 at [h]:[mi]:[s] UTC. *)
Definition at_ (h mi s : Z) : datetime := mk_datetime 2021 8 2 h mi s 0.

(** Two recordings of the same morning: the first file has a fix at
    09:00 and one at 12:00, back at the same place; the second, from
    another logger, has fixes at 10:00 and 11:00 on the way. *)
Definition two_loggers : list (Path * GPX) :=
  [("a.gpx", gpx_of [sample 10 10 (Some 250%float) (at_ 9 0 0);
                     sample 10 10 (Some 250%float) (at_ 12 0 0)]);
   ("b.gpx", gpx_of [sample 11 11 (Some 250%float) (at_ 10 0 0);
                     sample 12 12 (Some 250%float) (at_ 11 0 0)])].

(** The track of the doctests: 10:00 at (10, 10) and 11:00 at (11, 11),
    with elevations. *)
Definition one_hour : list (Path * GPX) :=
  [("track.gpx", gpx_of [sample 10 10 (Some 250%float) (at_ 10 0 0);
                         sample 11 11 (Some 260%float) (at_ 11 0 0)])].

(** The same track recorded without elevation. *)
Definition one_hour_flat : list (Path * GPX) :=
  [("track.gpx", gpx_of [sample 10 10 None (at_ 10 0 0);
                         sample 11 11 None (at_ 11 0 0)])].

Definition photo_at (f : Path) (t : datetime) : Photo Attrs :=
  {| img_file := f; img := []; datetime_digitized := t |}.

(** The file of a photograph with EXIF version 2.32 and the given
    "datetime_digitized" value. *)
Definition file_of (f : Path) (value : string) : Opened Attrs :=
  {| opened := {| path := f; image := []; digitized := value |};
     exif_version := Ok "0232" |}.

(** A logger switched off overnight: fixes on 2 August at 10:00 and on
    3 August at 11:00, twenty-five hours apart. *)
Definition overnight_before : GPXTrackPoint :=
  sample 10 10 None (mk_datetime 2021 8 2 10 0 0 0).
Definition overnight_after : GPXTrackPoint :=
  sample 11 11 None (mk_datetime 2021 8 3 11 0 0 0).

(** Fixes exactly one day apart. *)
Definition next_day_after : GPXTrackPoint :=
  sample 11 11 None (mk_datetime 2021 8 3 10 0 0 0).

(** A logger with five fixes a second: 09:59:59.7 and 10:00:00.3. *)
Definition fast_before : GPXTrackPoint :=
  sample 10 10 (Some 250%float) (mk_datetime 2021 8 2 9 59 59 700000).
Definition fast_after : GPXTrackPoint :=
  sample 11 11 (Some 250%float) (mk_datetime 2021 8 2 10 0 0 300000).
Definition fast_logger : list (Path * GPX) :=
  [("fast.gpx", gpx_of [fast_before; fast_after])].

(** A track along the equator. *)
Definition equator : list (Path * GPX) :=
  [("equator.gpx", gpx_of [sample 0 10 (Some 250%float) (at_ 10 0 0);
                           sample 0 11 (Some 250%float) (at_ 11 0 0)])].

(** A fix at sea level. *)
Definition sea_level : GPXTrackPoint := sample 10 10 (Some 0%float) (at_ 10 0 0).

(** * Properties *)

(** ** The doctests of the source *)

Example datetime_to_exif_doctest :
  datetime_to_exif (mk_datetime 2021 8 2 15 19 17 0) (-2)
  = {| timestamp := (13.0, 19.0, 17.0)%float; datestamp := "2021:08:02" |}.
Proof. reflexivity. Qed.

Example gpx_to_exif_doctests :
  gpx_to_exif (15.0 + 30.0 / 60.0 + 30.0 / 3600.0)%float = Ok (15.0, 30.0, 30.0)%float
  /\ gpx_to_exif (-15.0)%float = Ok (-15.0, 0.0, 0.0)%float
  /\ gpx_to_exif (-15.0 - 30.0 / 60.0)%float = Ok (-15.0, 30.0, 0.0)%float
  /\ gpx_to_exif (-15.0 - 30.0 / 60.0 - 30.0 / 3600.0)%float
     = Ok (-15.0, 30.0, 30.0)%float.
Proof. repeat split; reflexivity. Qed.

Example interpolate_doctests :
  interpolate (sample 10 10 None (at_ 10 0 0)) (sample 11 11 None (at_ 11 0 0))
    (at_ 10 30 0)
  = Ok (sample 10.5 10.5 None (at_ 10 30 0))
  /\ interpolate (sample 10 10 None (at_ 10 0 0)) (sample 11 11 None (at_ 11 0 0))
       (at_ 10 15 0)
     = Ok (sample 10.25 10.25 None (at_ 10 15 0)).
Proof. split; reflexivity. Qed.

(** The end-to-end scenario of the specification: a photograph digitized
    at 10:30 on the one-hour track is written with latitude
    (10, 30, 0) N and longitude (10, 30, 0) E. *)
Example adjust_main_end_to_end :
  adjust_main Attrs store_set one_hour [photo_at "p.jpg" (at_ 10 30 0)] "" 0
  = ([PrintArgs; PrintProcessingGPX "track.gpx"; PrintGPXCount 2;
      PrintProcessingImage "p.jpg";
      PrintDT (at_ 10 30 0) (at_ 10 0 0) (at_ 11 0 0);
      WriteFile "p.jpg"
        [("gps_version_id", VInt 2);
         ("gps_latitude_ref", VStr "N");
         ("gps_latitude", VTriple (10.0, 30.0, 0.0)%float);
         ("gps_longitude_ref", VStr "E");
         ("gps_longitude", VTriple (10.0, 30.0, 0.0)%float);
         ("gps_altitude_ref", VInt 0);
         ("gps_altitude", VFloat 255);
         ("gps_timestamp", VTriple (10.0, 30.0, 0.0)%float);
         ("gps_datestamp", VStr "2021:08:02")]],
     None).
Proof. vm_compute. reflexivity. Qed.

(** ** The bracket scan *)

Section BracketScan.

Implicit Types (used_dts : list Z) (exif_dt u : Z) (acc : option Z).

(** One turn of the loop. *)
Lemma bracket_scan_cons u used_dts exif_dt acc :
  bracket_scan (u :: used_dts) exif_dt acc
  = if u >=? exif_dt
    then (if u <=? exif_dt then Some u else acc, Some u)
    else bracket_scan used_dts exif_dt (if u <=? exif_dt then Some u else acc).
Proof. reflexivity. Qed.

(** Whatever the order of [used_dts]: a [before] that the scan assigned
    is at or before [exif_dt], and an [after] is at or after it. *)
Lemma bracket_scan_bounds used_dts exif_dt acc ob oa :
  bracket_scan used_dts exif_dt acc = (ob, oa) ->
  (forall b, ob = Some b -> acc = Some b \/ b <= exif_dt)
  /\ (forall a, oa = Some a -> exif_dt <= a).
Proof.
  revert acc. induction used_dts as [|u rest IH]; intros acc Hscan.
  - simpl in Hscan. injection Hscan as <- <-. split; [auto | discriminate].
  - rewrite bracket_scan_cons in Hscan.
    destruct (Z.geb_spec u exif_dt) as [Hge|Hlt].
    + injection Hscan as <- <-. split.
      * intros b Hb. destruct (Z.leb_spec u exif_dt); [right | left; exact Hb].
        injection Hb as <-. assumption.
      * intros a Ha. injection Ha as <-. assumption.
    + destruct (IH _ Hscan) as [Hb Ha]. split; [|exact Ha].
      intros b Hob. destruct (Hb b Hob) as [Hacc|Hle]; [|right; exact Hle].
      destruct (Z.leb_spec u exif_dt); [right | left; exact Hacc].
      injection Hacc as <-. assumption.
Qed.

(** The timestamps the scan returns were met in [used_dts]. *)
Lemma bracket_scan_elem used_dts exif_dt acc ob oa :
  bracket_scan used_dts exif_dt acc = (ob, oa) ->
  (forall b, ob = Some b -> acc = Some b \/ b ∈ used_dts)
  /\ (forall a, oa = Some a -> a ∈ used_dts).
Proof.
  revert acc. induction used_dts as [|u rest IH]; intros acc Hscan.
  - simpl in Hscan. injection Hscan as <- <-. split; [auto | discriminate].
  - rewrite bracket_scan_cons in Hscan.
    destruct (u >=? exif_dt).
    + injection Hscan as <- <-. split.
      * intros b Hb. destruct (u <=? exif_dt); [right | left; exact Hb].
        injection Hb as <-. apply list_elem_of_here.
      * intros a Ha. injection Ha as <-. apply list_elem_of_here.
    + destruct (IH _ Hscan) as [Hb Ha]. split.
      * intros b Hob. destruct (Hb b Hob) as [Hacc|Hin].
        -- destruct (u <=? exif_dt); [right | left; exact Hacc].
           injection Hacc as <-. apply list_elem_of_here.
        -- right. apply list_elem_of_further, Hin.
      * intros a Hoa. apply list_elem_of_further, Ha, Hoa.
Qed.

(** A scan over timestamps that all lie after [exif_dt] stops at the
    first one and leaves [before] as it was. *)
Lemma bracket_scan_all_after used_dts exif_dt acc :
  Forall (fun u => exif_dt < u) used_dts ->
  (bracket_scan used_dts exif_dt acc).1 = acc.
Proof.
  intros Hall. destruct Hall as [|u rest Hu _]; [reflexivity|].
  rewrite bracket_scan_cons.
  destruct (Z.geb_spec u exif_dt); [|lia].
  destruct (Z.leb_spec u exif_dt); [lia | reflexivity].
Qed.

(** A scan over timestamps that all lie before [exif_dt] never finds an
    [after]. *)
Lemma bracket_scan_all_before used_dts exif_dt acc :
  Forall (fun u => u < exif_dt) used_dts ->
  (bracket_scan used_dts exif_dt acc).2 = None.
Proof.
  intros Hall. revert acc.
  induction Hall as [|u rest Hu _ IH]; intros acc; [reflexivity|].
  rewrite bracket_scan_cons.
  destruct (Z.geb_spec u exif_dt); [lia | apply IH].
Qed.

End BracketScan.

(** ** The index built from the GPX files *)

Lemma fold_left_preserves {A B : Type} (P : A -> Prop) (f : A -> B -> A) :
  (forall a b, P a -> P (f a b)) ->
  forall l a, P a -> P (fold_left f l a).
Proof.
  intros Hstep l. induction l as [|b l IH]; intros a Ha; simpl; [exact Ha|].
  apply IH, Hstep, Ha.
Qed.

Lemma load_point_ok gpx_file st point :
  index_ok st -> index_ok (load_point gpx_file st point).
Proof.
  intros [Hkey Hused]. split; simpl.
  - intros k p f. rewrite lookup_insert.
    destruct (decide (time point = k)) as [Heq|Hne]; simpl.
    + intros H. injection H as <- _. exact Heq.
    + apply Hkey.
  - intros u Hu. rewrite lookup_insert.
    destruct (decide (time point = u)); simpl; [eauto|].
    apply elem_of_app in Hu as [Hu|Hu]; [apply Hused, Hu|].
    apply list_elem_of_singleton in Hu. congruence.
Qed.

Lemma load_gpx_files_ok gpx_files : index_ok (load_gpx_files gpx_files).
Proof.
  unfold load_gpx_files. apply fold_left_preserves.
  - intros st file. unfold load_gpx. apply fold_left_preserves.
    intros st' track. unfold load_track. apply fold_left_preserves.
    intros st'' segment. unfold load_segment. apply fold_left_preserves.
    intros st''' point. apply load_point_ok.
  - split; simpl.
    + intros k p f. rewrite lookup_empty. discriminate.
    + intros u Hu. apply elem_of_nil in Hu. contradiction.
Qed.

(** [used_dts] lists the times of the points in the order of the files,
    tracks, segments and points: insertion order, nothing else. *)
Lemma load_gpx_files_single pts f :
  (load_gpx_files [(f, gpx_of pts)]).2 = map time pts.
Proof.
  unfold load_gpx_files, load_gpx, load_track, load_segment. simpl.
  change (map time pts) with (([] : list Z) ++ map time pts).
  generalize (∅ : gmap Z (GPXTrackPoint * Path)) ([] : list Z).
  induction pts as [|p pts IH]; intros m l; simpl.
  - symmetry. apply app_nil_r.
  - unfold load_point at 2. simpl. rewrite IH, <- app_assoc. reflexivity.
Qed.

(** ** The interpolator's contract *)

(** Past the assertion, [interpolate] raises nothing that is an
    [AssertionError]. *)
Lemma interpolate_pre_no_assertion before after dt msg :
  interpolate_pre before after dt = true ->
  interpolate before after dt <> Raise (Exn AssertionError msg).
Proof.
  intros Hpre. unfold interpolate. rewrite Hpre. simpl.
  destruct (GPXTrackPoint_eqb before after); [discriminate|].
  unfold interpolate_ratio, truediv.
  destruct (_ =? _)%float; [discriminate|]. simpl.
  unfold interpolate_elevation.
  destruct (truthy (elevation before)); [|discriminate].
  destruct (elevation before), (elevation after); discriminate.
Qed.

(** C9: in whatever order the scan visits the timestamps of [used_dts],
    and for every query time [exif_dt], a scan that yields both a
    [before] and an [after] yields them with
    [before <= exif_dt <= after]; and when [used_dts] belongs to an index
    that [adjust_main] loaded, the two points it then fetches from
    [gpx_points] carry exactly these times, so the assertion of
    [interpolate] holds for them and no [AssertionError] is raised. *)
Theorem bracket_pair_meets_interpolate_contract
    (used_dts : list Z) (exif_dt before after : Z) :
  bracket used_dts exif_dt = (Some before, Some after) ->
  before <= exif_dt <= after
  /\ forall gpx_files,
       (load_gpx_files gpx_files).2 = used_dts ->
       exists pb pa,
         getitem0 (load_gpx_files gpx_files).1 before = Ok pb
         /\ getitem0 (load_gpx_files gpx_files).1 after = Ok pa
         /\ time pb = before /\ time pa = after
         /\ interpolate_pre pb pa exif_dt = true
         /\ forall msg,
              interpolate pb pa exif_dt <> Raise (Exn AssertionError msg).
Proof.
  intros Hscan. unfold bracket in Hscan.
  destruct (bracket_scan_bounds _ _ _ _ _ Hscan) as [Hb Ha].
  destruct (Hb before eq_refl) as [Hnone|Hle]; [discriminate|].
  specialize (Ha after eq_refl).
  split; [lia|].
  intros gpx_files Hused.
  destruct (bracket_scan_elem _ _ _ _ _ Hscan) as [Hbin Hain].
  destruct (Hbin before eq_refl) as [Hnone|Hbmem]; [discriminate|].
  specialize (Hain after eq_refl).
  destruct (load_gpx_files_ok gpx_files) as [Hkey Hkeys].
  rewrite Hused in Hkeys.
  destruct (Hkeys before Hbmem) as [[pb fb] Hpb].
  destruct (Hkeys after Hain) as [[pa fa] Hpa].
  pose proof (Hkey _ _ _ Hpb) as Htb. pose proof (Hkey _ _ _ Hpa) as Hta.
  assert (Hpre : interpolate_pre pb pa exif_dt = true).
  { unfold interpolate_pre. rewrite Htb, Hta.
    apply andb_true_iff. split; apply Z.leb_le; lia. }
  exists pb, pa. unfold getitem0. rewrite Hpb, Hpa. simpl.
  repeat split; try assumption.
  intros msg. apply interpolate_pre_no_assertion, Hpre.
Qed.

Lemma bracket_pair_meets_interpolate_contract_witness :
  at_ 9 0 0 <= at_ 10 30 0 <= at_ 12 0 0
  /\ forall gpx_files,
       (load_gpx_files gpx_files).2 = (load_gpx_files two_loggers).2 ->
       exists pb pa,
         getitem0 (load_gpx_files gpx_files).1 (at_ 9 0 0) = Ok pb
         /\ getitem0 (load_gpx_files gpx_files).1 (at_ 12 0 0) = Ok pa
         /\ time pb = at_ 9 0 0 /\ time pa = at_ 12 0 0
         /\ interpolate_pre pb pa (at_ 10 30 0) = true
         /\ forall msg,
              interpolate pb pa (at_ 10 30 0) <> Raise (Exn AssertionError msg).
Proof.
  apply (bracket_pair_meets_interpolate_contract
           (load_gpx_files two_loggers).2 (at_ 10 30 0) (at_ 9 0 0) (at_ 12 0 0)).
  vm_compute. reflexivity.
Defined.

(** ** Photographs outside the track *)

(** C10: when the query time of a photograph strictly precedes every
    timestamp of [used_dts], or strictly follows every one of them, the
    scan leaves [before] or [after] unset; the photograph is then skipped:
    the run prints the skipping line, writes no file, raises nothing, and
    goes on with the remaining photographs. *)
Theorem bracket_miss_is_skipped
    (Image : Type) (img_set : Image -> string -> exif_value -> result Image)
    (gpx_points : gmap Z (GPXTrackPoint * Path)) (used_dts : list Z)
    (timezone_adjustment : Z) (photo : Photo Image) (rest : list (Photo Image))
    (exif_dt : Z) :
  exif_dt = dt_add (datetime_digitized photo) (timedelta_hours timezone_adjustment) ->
  Forall (fun u => exif_dt < u) used_dts \/ Forall (fun u => u < exif_dt) used_dts ->
  ((bracket used_dts exif_dt).1 = None \/ (bracket used_dts exif_dt).2 = None)
  /\ process_image Image img_set gpx_points used_dts timezone_adjustment photo
     = ([PrintProcessingImage (img_file photo); PrintSkipping (img_file photo)],
        None)
  /\ process_images Image img_set gpx_points used_dts timezone_adjustment
       (photo :: rest)
     = ([PrintProcessingImage (img_file photo); PrintSkipping (img_file photo)]
          ++ (process_images Image img_set gpx_points used_dts
                timezone_adjustment rest).1,
        (process_images Image img_set gpx_points used_dts
           timezone_adjustment rest).2).
Proof.
  intros Hdt Hout.
  assert (Hmiss : (bracket used_dts exif_dt).1 = None
                  \/ (bracket used_dts exif_dt).2 = None).
  { unfold bracket. destruct Hout as [Hafter|Hbefore].
    - left. apply bracket_scan_all_after, Hafter.
    - right. apply bracket_scan_all_before, Hbefore. }
  assert (Hone : process_image Image img_set gpx_points used_dts
                   timezone_adjustment photo
                 = ([PrintProcessingImage (img_file photo);
                     PrintSkipping (img_file photo)], None)).
  { unfold process_image. rewrite <- Hdt.
    destruct (bracket used_dts exif_dt) as [[b|] [a|]]; simpl in Hmiss;
      try reflexivity; destruct Hmiss; discriminate. }
  split; [exact Hmiss|]. split; [exact Hone|].
  cbn [process_images]. rewrite Hone.
  destruct (process_images Image img_set gpx_points used_dts
              timezone_adjustment rest) as [events' raised].
  reflexivity.
Qed.

Lemma bracket_miss_is_skipped_witness :
  process_images Attrs store_set (load_gpx_files one_hour).1
    (load_gpx_files one_hour).2 0
    [photo_at "early.jpg" (at_ 8 0 0); photo_at "late.jpg" (at_ 13 0 0)]
  = ([PrintProcessingImage "early.jpg"; PrintSkipping "early.jpg";
      PrintProcessingImage "late.jpg"; PrintSkipping "late.jpg"], None).
Proof.
  pose proof (bracket_miss_is_skipped Attrs store_set
                (load_gpx_files one_hour).1 (load_gpx_files one_hour).2 0
                (photo_at "early.jpg" (at_ 8 0 0))
                [photo_at "late.jpg" (at_ 13 0 0)] (at_ 8 0 0)) as H.
  destruct H as (_ & _ & H).
  - vm_compute. reflexivity.
  - left. vm_compute. repeat constructor.
  - rewrite H. vm_compute. reflexivity.
Defined.

(** ** The ratio of the interpolation *)

(** [td.seconds] is what remains of the whole seconds once the whole
    days are taken out. *)
Lemma seconds_drops_days (td : Z) :
  seconds td = td / us_per_second - 86400 * days td.
Proof.
  unfold seconds, days, us_per_day.
  rewrite Z.mod_eq by lia.
  rewrite (Z.mul_comm 86400 us_per_second).
  rewrite <- Z.div_div by (unfold us_per_second; lia).
  reflexivity.
Qed.

(** X23: between two fixes at least a second and less than a day apart the
    two [seconds] fields are the elapsed whole seconds: the denominator
    is positive and the numerator does not exceed it. *)
Lemma seconds_within_a_day (before after dt : Z) :
  before <= dt <= after ->
  us_per_second <= dt_sub after before < us_per_day ->
  seconds (dt_sub dt before) = (dt - before) / us_per_second
  /\ seconds (dt_sub after before) = (after - before) / us_per_second
  /\ 0 <= seconds (dt_sub dt before) <= seconds (dt_sub after before)
  /\ 0 < seconds (dt_sub after before).
Proof.
  unfold dt_sub, us_per_day, us_per_second, seconds. intros Hord Hgap.
  assert (Hq : 0 <= (dt - before) / 1000000 <= (after - before) / 1000000).
  { split; [apply Z.div_pos; lia | apply Z.div_le_mono; lia]. }
  assert (Hd : 1 <= (after - before) / 1000000 < 86400).
  { split; [apply Z.div_le_lower_bound; lia | apply Z.div_lt_upper_bound; lia]. }
  rewrite (Z.mod_small ((dt - before) / 1000000)) by lia.
  rewrite (Z.mod_small ((after - before) / 1000000)) by lia. lia.
Qed.

(** When [interpolate] gets past its two guards and both the ratio and
    the elevation are computed, it builds the new point from them. *)
Lemma interpolate_builds before after dt ratio ele :
  interpolate_pre before after dt = true ->
  GPXTrackPoint_eqb before after = false ->
  interpolate_ratio before after dt = Ok ratio ->
  interpolate_elevation before after ratio = Ok ele ->
  interpolate before after dt
  = Ok {| latitude :=
            (latitude before + ratio * (latitude after - latitude before))%float;
          longitude :=
            (longitude before + ratio * (longitude after - longitude before))%float;
          elevation := ele;
          time := dt;
          symbol := symbol before;
          comment := comment before;
          horizontal_dilution := horizontal_dilution before;
          vertical_dilution := vertical_dilution before;
          position_dilution := position_dilution before;
          speed := speed before;
          name := name before |}.
Proof.
  intros Hpre Hne Hratio Hele. unfold interpolate.
  rewrite Hpre, Hne, Hratio. simpl. rewrite Hele. reflexivity.
Qed.

(** X10: two samples that pass both guards and whose times differ by a
    timedelta with a [seconds] field of 0, less than a second or a whole
    number of days, make line 106 divide by zero. *)
Lemma interpolate_zero_seconds before after dt :
  interpolate_pre before after dt = true ->
  GPXTrackPoint_eqb before after = false ->
  seconds (dt_sub (time after) (time before)) = 0 ->
  interpolate before after dt
  = Raise (Exn ZeroDivisionError "float division by zero").
Proof.
  intros Hpre Hne Hzero. unfold interpolate, interpolate_ratio.
  rewrite Hpre, Hne, Hzero. reflexivity.
Qed.

(** C1: between the fixes of 2 August 10:00 at (10, 10) and 3 August
    11:00 at (11, 11), a photograph of 2 August 12:00 satisfies the
    precondition and the two fixes are distinct, yet the ratio is 2 and the
    interpolated position is (12, 12), outside the segment between the two
    fixes: [.seconds] yields 7200 for the two hours elapsed and 3600 for
    the twenty-five hours between the fixes. *)
Theorem interpolate_ratio_ignores_days :
  interpolate_pre overnight_before overnight_after (mk_datetime 2021 8 2 12 0 0 0)
  = true
  /\ GPXTrackPoint_eqb overnight_before overnight_after = false
  /\ seconds (dt_sub (mk_datetime 2021 8 2 12 0 0 0) (time overnight_before)) = 7200
  /\ seconds (dt_sub (time overnight_after) (time overnight_before)) = 3600
  /\ dt_sub (time overnight_after) (time overnight_before)
     = 25 * 3600 * us_per_second
  /\ interpolate_ratio overnight_before overnight_after
       (mk_datetime 2021 8 2 12 0 0 0) = Ok 2%float
  /\ interpolate overnight_before overnight_after (mk_datetime 2021 8 2 12 0 0 0)
     = Ok (sample 12 12 None (mk_datetime 2021 8 2 12 0 0 0)).
Proof. repeat split; vm_compute; reflexivity. Qed.

(** C4: two distinct fixes 0.6 s apart around a photograph of 10:00:00
    satisfy the precondition, and so do two fixes exactly one day apart;
    in both cases the denominator [(after.time - before.time).seconds] is
    0 and [interpolate] raises [ZeroDivisionError], which the run does not
    catch. *)
Theorem interpolate_divides_by_zero :
  (interpolate_pre fast_before fast_after (at_ 10 0 0) = true
   /\ GPXTrackPoint_eqb fast_before fast_after = false
   /\ seconds (dt_sub (time fast_after) (time fast_before)) = 0
   /\ interpolate fast_before fast_after (at_ 10 0 0)
      = Raise (Exn ZeroDivisionError "float division by zero"))
  /\ (interpolate_pre overnight_before next_day_after (at_ 12 0 0) = true
      /\ GPXTrackPoint_eqb overnight_before next_day_after = false
      /\ seconds (dt_sub (time next_day_after) (time overnight_before)) = 0
      /\ interpolate overnight_before next_day_after (at_ 12 0 0)
         = Raise (Exn ZeroDivisionError "float division by zero"))
  /\ adjust_main Attrs store_set fast_logger
       [photo_at "p1.jpg" (at_ 10 0 0); photo_at "p2.jpg" (at_ 10 0 0)] "" 0
     = ([PrintArgs; PrintProcessingGPX "fast.gpx"; PrintGPXCount 2;
         PrintProcessingImage "p1.jpg";
         PrintDT (at_ 10 0 0) (time fast_before) (time fast_after)],
        Some (Exn ZeroDivisionError "float division by zero")).
Proof. repeat split; vm_compute; reflexivity. Qed.

(** ** The coordinate codec at zero *)

(** C2: [gpx_to_exif] returns no triple for a coordinate of 0: the sign
    is taken from [a / c], which raises [ZeroDivisionError] for 0.0 and
    for -0.0; a run over a track along the equator stops at the first
    photograph with that exception. *)
Theorem gpx_to_exif_zero_raises :
  gpx_to_exif 0%float = Raise (Exn ZeroDivisionError "float division by zero")
  /\ gpx_to_exif (-0)%float = Raise (Exn ZeroDivisionError "float division by zero")
  /\ adjust_main Attrs store_set equator
       [photo_at "p1.jpg" (at_ 10 30 0); photo_at "p2.jpg" (at_ 10 45 0)] "" 0
     = ([PrintArgs; PrintProcessingGPX "equator.gpx"; PrintGPXCount 2;
         PrintProcessingImage "p1.jpg";
         PrintDT (at_ 10 30 0) (at_ 10 0 0) (at_ 11 0 0)],
        Some (Exn ZeroDivisionError "float division by zero")).
Proof. repeat split; vm_compute; reflexivity. Qed.

(** Away from zero the sign factor [a / c] is defined, and below one
    degree the degrees component is a zero that carries the sign bit. *)
Example gpx_to_exif_below_one_degree :
  gpx_to_exif 0.5%float = Ok (0.0, 30.0, 0.0)%float
  /\ gpx_to_exif (-0.5)%float = Ok (-0.0, 30.0, 0.0)%float.
Proof. split; reflexivity. Qed.

(** ** Absent elevation *)

(** X24: whatever the writer does, [adjust_image] does not complete on a
    point without elevation. *)
Lemma adjust_image_needs_elevation
    (Image : Type) (img_set : Image -> string -> exif_value -> result Image)
    (img img' : Image) (point : GPXTrackPoint) :
  elevation point = None ->
  adjust_image Image img_set img point <> Ok img'.
Proof.
  intros Hnone. unfold adjust_image. rewrite Hnone.
  repeat (match goal with
          | |- context [mbind _ ?m] =>
              first [ is_var m; fail 1
                    | let x := fresh "x" in destruct m as [x|?] eqn:?; simpl ]
          end; try discriminate).
Qed.

(** C6: on a track recorded without elevation, interpolation passes the
    absent elevation on, and [adjust_image] then raises [TypeError] on
    [point.elevation > 0]; the run does not catch it, so it ends at the
    first photograph inside the track and writes nothing.  The
    interpolation itself raises [TypeError] when only the later fix lacks
    the elevation. *)
Theorem absent_elevation_raises :
  interpolate (sample 10 10 None (at_ 10 0 0)) (sample 11 11 None (at_ 11 0 0))
    (at_ 10 30 0)
  = Ok (sample 10.5 10.5 None (at_ 10 30 0))
  /\ adjust_image Attrs store_set [] (sample 10.5 10.5 None (at_ 10 30 0))
     = Raise (Exn TypeError
                "'>' not supported between instances of 'NoneType' and 'int'")
  /\ adjust_main Attrs store_set one_hour_flat
       [photo_at "p1.jpg" (at_ 10 30 0); photo_at "p2.jpg" (at_ 10 45 0)] "" 0
     = ([PrintArgs; PrintProcessingGPX "track.gpx"; PrintGPXCount 2;
         PrintProcessingImage "p1.jpg";
         PrintDT (at_ 10 30 0) (at_ 10 0 0) (at_ 11 0 0)],
        Some (Exn TypeError
                "'>' not supported between instances of 'NoneType' and 'int'"))
  /\ interpolate (sample 10 10 (Some 250%float) (at_ 10 0 0))
       (sample 11 11 None (at_ 11 0 0)) (at_ 10 30 0)
     = Raise (Exn TypeError
                "unsupported operand type(s) for -: 'NoneType' and 'float'").
Proof. repeat split; vm_compute; reflexivity. Qed.

(** ** Values of exactly zero *)

(** A float equal to zero, 0.0 or -0.0, is not above zero. *)
Lemma float_zero_not_gt0 (x : float) :
  (x =? 0)%float = true -> gt0 x = false.
Proof.
  unfold gt0. rewrite FloatAxioms.eqb_spec, ltb_spec.
  change (Prim2SF 0) with (S754_zero false).
  destruct (Prim2SF x) as [s|[|]| |[|] m e]; cbv; congruence.
Qed.

(** A float below zero is not above zero, and neither is NaN. *)
Lemma float_negative_not_gt0 (x : float) :
  (x <? 0)%float = true -> gt0 x = false.
Proof.
  unfold gt0. rewrite !ltb_spec.
  change (Prim2SF 0) with (S754_zero false).
  destruct (Prim2SF x) as [s|[|]| |[|] m e]; cbv; congruence.
Qed.

Lemma float_nan_not_gt0 (x : float) :
  is_nan x = true -> gt0 x = false.
Proof.
  unfold gt0, is_nan. rewrite FloatAxioms.eqb_spec, ltb_spec.
  change (Prim2SF 0) with (S754_zero false). unfold SFeqb, SFltb.
  destruct (Prim2SF x) as [s|[|]| |[|] m e]; simpl;
    try rewrite Z.compare_refl, Pos.compare_cont_refl; simpl; congruence.
Qed.

(** C7 as the code has it: a latitude, longitude or elevation that is
    exactly zero takes the [else] branch of [> 0], so the hemisphere is
    "S" or "W" and the altitude reference is -1; "N", "E" and the
    reference 0 are returned for the values strictly greater than zero and
    for no other: a value below zero and NaN take the [else] branch as
    zero does. *)
Theorem zero_takes_the_else_branch (x : float) :
  ((x =? 0)%float = true ->
   latitude_ref x = "S" /\ longitude_ref x = "W" /\ altitude_ref x = -1)
  /\ (latitude_ref x = "N" <-> (0 <? x)%float = true)
  /\ (longitude_ref x = "E" <-> (0 <? x)%float = true)
  /\ (altitude_ref x = 0 <-> (0 <? x)%float = true)
  /\ ((x <? 0)%float = true \/ is_nan x = true ->
      latitude_ref x = "S" /\ longitude_ref x = "W" /\ altitude_ref x = -1).
Proof.
  unfold latitude_ref, longitude_ref, altitude_ref.
  split; [intros Hzero; rewrite (float_zero_not_gt0 x Hzero); repeat split|].
  split; [unfold gt0; destruct (0 <? x)%float; split; congruence|].
  split; [unfold gt0; destruct (0 <? x)%float; split; congruence|].
  split; [unfold gt0; destruct (0 <? x)%float; split; congruence|].
  intros [Hneg|Hnan];
    [rewrite (float_negative_not_gt0 x Hneg)
    |rewrite (float_nan_not_gt0 x Hnan)]; repeat split.
Qed.

Lemma zero_takes_the_else_branch_witness :
  latitude_ref 0 = "S" /\ longitude_ref 0 = "W" /\ altitude_ref 0 = -1.
Proof. apply (proj1 (zero_takes_the_else_branch 0)). reflexivity. Defined.

(** C7 fails as stated: at exactly 0 the hemisphere is neither "N" nor
    "E", and the altitude reference is not the 0 written for elevations
    above sea level. *)
Lemma zero_is_not_on_the_positive_side :
  latitude_ref 0 <> "N" /\ longitude_ref 0 <> "E" /\ altitude_ref 0 <> 0.
Proof. repeat split; vm_compute; discriminate. Qed.

(** The attributes written for a fix at sea level. *)
Example adjust_image_sea_level :
  adjust_image Attrs store_set [] sea_level
  = Ok [("gps_version_id", VInt 2);
        ("gps_latitude_ref", VStr "N");
        ("gps_latitude", VTriple (10.0, 0.0, 0.0)%float);
        ("gps_longitude_ref", VStr "E");
        ("gps_longitude", VTriple (10.0, 0.0, 0.0)%float);
        ("gps_altitude_ref", VInt (-1));
        ("gps_altitude", VFloat 0);
        ("gps_timestamp", VTriple (10.0, 0.0, 0.0)%float);
        ("gps_datestamp", VStr "2021:08:02")].
Proof. vm_compute. reflexivity. Qed.

(** ** The elevation of the interpolated point *)

(** The guard of line 103: the identical sample comes back as it is. *)
Lemma interpolate_identical before after dt :
  interpolate_pre before after dt = true ->
  GPXTrackPoint_eqb before after = true ->
  interpolate before after dt = Ok before.
Proof.
  intros Hpre Heq. unfold interpolate. rewrite Hpre, Heq. reflexivity.
Qed.

(** C8 as the code has it: when [interpolate] builds a new point, that
    is, the precondition holds, the two samples are not the identical
    sample and the ratio is computed, then an elevation of [before] that
    is absent or exactly 0.0 makes the elevation of the result absent,
    whatever the elevation of [after]; and an elevation of [before] that
    is present and not zero, with the elevation of [after] present, is
    interpolated with the ratio that latitude and longitude use. *)
Theorem interpolate_elevation_rule
    (before after : GPXTrackPoint) (dt : Z) (ratio : float) :
  interpolate_pre before after dt = true ->
  GPXTrackPoint_eqb before after = false ->
  interpolate_ratio before after dt = Ok ratio ->
  (elevation before = None
   \/ (exists e, elevation before = Some e /\ (e =? 0)%float = true) ->
   exists p, interpolate before after dt = Ok p /\ elevation p = None)
  /\ (forall be ae,
        elevation before = Some be -> (be =? 0)%float = false ->
        elevation after = Some ae ->
        exists p,
          interpolate before after dt = Ok p
          /\ elevation p = Some (be + ratio * (ae - be))%float
          /\ latitude p
             = (latitude before + ratio * (latitude after - latitude before))%float
          /\ longitude p
             = (longitude before
                + ratio * (longitude after - longitude before))%float).
Proof.
  intros Hpre Hne Hratio. split.
  - intros Habsent.
    assert (Hele : interpolate_elevation before after ratio = Ok None).
    { unfold interpolate_elevation, truthy, float_bool.
      destruct Habsent as [-> | (e & -> & ->)]; reflexivity. }
    eexists. split; [apply (interpolate_builds _ _ _ _ _ Hpre Hne Hratio Hele)|].
    reflexivity.
  - intros be ae Hbe Hnz Hae.
    assert (Hele : interpolate_elevation before after ratio
                   = Ok (Some (be + ratio * (ae - be))%float)).
    { unfold interpolate_elevation, truthy, float_bool.
      rewrite Hbe, Hae, Hnz. reflexivity. }
    eexists. split; [apply (interpolate_builds _ _ _ _ _ Hpre Hne Hratio Hele)|].
    repeat split.
Qed.

Lemma interpolate_elevation_rule_witness :
  (elevation (sample 10 10 (Some 0%float) (at_ 10 0 0)) = None
   \/ (exists e, elevation (sample 10 10 (Some 0%float) (at_ 10 0 0)) = Some e
                 /\ (e =? 0)%float = true) ->
   exists p,
     interpolate (sample 10 10 (Some 0%float) (at_ 10 0 0))
       (sample 11 11 (Some 260%float) (at_ 11 0 0)) (at_ 10 30 0) = Ok p
     /\ elevation p = None)
  /\ (forall be ae,
        elevation (sample 10 10 (Some 0%float) (at_ 10 0 0)) = Some be ->
        (be =? 0)%float = false ->
        elevation (sample 11 11 (Some 260%float) (at_ 11 0 0)) = Some ae ->
        exists p,
          interpolate (sample 10 10 (Some 0%float) (at_ 10 0 0))
            (sample 11 11 (Some 260%float) (at_ 11 0 0)) (at_ 10 30 0) = Ok p
          /\ elevation p = Some (be + 0.5 * (ae - be))%float
          /\ latitude p = (10 + 0.5 * (11 - 10))%float
          /\ longitude p = (10 + 0.5 * (11 - 10))%float).
Proof.
  apply (interpolate_elevation_rule
           (sample 10 10 (Some 0%float) (at_ 10 0 0))
           (sample 11 11 (Some 260%float) (at_ 11 0 0)) (at_ 10 30 0) 0.5%float);
    vm_compute; reflexivity.
Defined.

(** C8 fails as stated: for the identical sample with elevation 0.0 the
    precondition holds and the result is the sample itself, whose
    elevation is 0.0, not absent. *)
Lemma identical_sample_keeps_zero_elevation :
  interpolate_pre sea_level sea_level (at_ 10 0 0) = true
  /\ elevation sea_level = Some 0%float
  /\ interpolate sea_level sea_level (at_ 10 0 0) = Ok sea_level
  /\ ~ (exists p, interpolate sea_level sea_level (at_ 10 0 0) = Ok p
                  /\ elevation p = None).
Proof.
  repeat split; try (vm_compute; reflexivity).
  intros (p & Hp & Hnone).
  assert (Heq : interpolate sea_level sea_level (at_ 10 0 0) = Ok sea_level)
    by (vm_compute; reflexivity).
  rewrite Heq in Hp. injection Hp as <-. discriminate Hnone.
Qed.

(** ** Failures while the attributes are written *)

(** C5 as the code has it: an exception of class [RuntimeError] raised
    under the [try] of a photograph, by the writer or before it, is
    caught: the run prints the error line for that photograph, writes no
    file for it, and goes on with the remaining photographs. *)
Theorem runtime_error_is_caught
    (Image : Type) (img_set : Image -> string -> exif_value -> result Image)
    (gpx_points : gmap Z (GPXTrackPoint * Path)) (used_dts : list Z)
    (timezone_adjustment : Z) (photo : Photo Image) (rest : list (Photo Image))
    (exif_dt before after : Z) (e : exn) :
  exif_dt = dt_add (datetime_digitized photo) (timedelta_hours timezone_adjustment) ->
  bracket used_dts exif_dt = (Some before, Some after) ->
  try_adjust Image img_set gpx_points before after exif_dt photo = Raise e ->
  is_RuntimeError e = true ->
  process_image Image img_set gpx_points used_dts timezone_adjustment photo
  = ([PrintProcessingImage (img_file photo); PrintDT exif_dt before after;
      PrintError (img_file photo) e], None)
  /\ process_images Image img_set gpx_points used_dts timezone_adjustment
       (photo :: rest)
     = ([PrintProcessingImage (img_file photo); PrintDT exif_dt before after;
         PrintError (img_file photo) e]
          ++ (process_images Image img_set gpx_points used_dts
                timezone_adjustment rest).1,
        (process_images Image img_set gpx_points used_dts
           timezone_adjustment rest).2).
Proof.
  intros Hdt Hscan Htry Hrt.
  assert (Hone : process_image Image img_set gpx_points used_dts
                   timezone_adjustment photo
                 = ([PrintProcessingImage (img_file photo);
                     PrintDT exif_dt before after;
                     PrintError (img_file photo) e], None)).
  { unfold process_image. rewrite <- Hdt, Hscan, Htry, Hrt. reflexivity. }
  split; [exact Hone|].
  cbn [process_images]. rewrite Hone.
  destruct (process_images Image img_set gpx_points used_dts
              timezone_adjustment rest) as [events' raised].
  reflexivity.
Qed.

Lemma runtime_error_is_caught_witness :
  process_images Attrs refuse_set (load_gpx_files one_hour).1
    (load_gpx_files one_hour).2 0
    [photo_at "p1.jpg" (at_ 10 30 0); photo_at "p2.jpg" (at_ 10 45 0)]
  = ([PrintProcessingImage "p1.jpg";
      PrintDT (at_ 10 30 0) (at_ 10 0 0) (at_ 11 0 0);
      PrintError "p1.jpg" (Exn RuntimeError "cannot set attribute");
      PrintProcessingImage "p2.jpg";
      PrintDT (at_ 10 45 0) (at_ 10 0 0) (at_ 11 0 0);
      PrintError "p2.jpg" (Exn RuntimeError "cannot set attribute")], None).
Proof.
  pose proof (runtime_error_is_caught Attrs refuse_set
                (load_gpx_files one_hour).1 (load_gpx_files one_hour).2 0
                (photo_at "p1.jpg" (at_ 10 30 0))
                [photo_at "p2.jpg" (at_ 10 45 0)]
                (at_ 10 30 0) (at_ 10 0 0) (at_ 11 0 0)
                (Exn RuntimeError "cannot set attribute")) as H.
  destruct H as [_ H].
  - vm_compute. reflexivity.
  - vm_compute. reflexivity.
  - vm_compute. reflexivity.
  - reflexivity.
  - rewrite H. vm_compute. reflexivity.
Defined.

(** X15: an exception of any other class raised under the [try] leaves the
    loop: the photographs that follow are not processed. *)
Lemma other_error_ends_the_run
    (Image : Type) (img_set : Image -> string -> exif_value -> result Image)
    (gpx_points : gmap Z (GPXTrackPoint * Path)) (used_dts : list Z)
    (timezone_adjustment : Z) (photo : Photo Image) (rest : list (Photo Image))
    (exif_dt before after : Z) (e : exn) :
  exif_dt = dt_add (datetime_digitized photo) (timedelta_hours timezone_adjustment) ->
  bracket used_dts exif_dt = (Some before, Some after) ->
  try_adjust Image img_set gpx_points before after exif_dt photo = Raise e ->
  is_RuntimeError e = false ->
  process_images Image img_set gpx_points used_dts timezone_adjustment
    (photo :: rest)
  = ([PrintProcessingImage (img_file photo); PrintDT exif_dt before after],
     Some e).
Proof.
  intros Hdt Hscan Htry Hrt. cbn [process_images]. unfold process_image.
  rewrite <- Hdt, Hscan, Htry, Hrt. reflexivity.
Qed.

(** C5 fails as stated: a writer that rejects a value with a
    [ValueError] ends the run at the first photograph; the second one is
    never processed. *)
Lemma value_error_ends_the_run :
  adjust_main Attrs reject_set one_hour
    [photo_at "p1.jpg" (at_ 10 30 0); photo_at "p2.jpg" (at_ 10 45 0)] "" 0
  = ([PrintArgs; PrintProcessingGPX "track.gpx"; PrintGPXCount 2;
      PrintProcessingImage "p1.jpg";
      PrintDT (at_ 10 30 0) (at_ 10 0 0) (at_ 11 0 0)],
     Some (Exn ValueError "value rejected")).
Proof. vm_compute. reflexivity. Qed.

(** ** The bracket and the chronological order *)

Section Chronological.

Implicit Types (ts used_dts : list Z) (q u b : Z).

(** [lastSampleAtOrBefore] is the greatest timestamp at or before [q],
    and is absent exactly when every timestamp is after [q]. *)
Lemma lastSampleAtOrBefore_spec ts q :
  match lastSampleAtOrBefore ts q with
  | Some b => b ∈ ts /\ b <= q /\ forall u, u ∈ ts -> u <= q -> u <= b
  | None => forall u, u ∈ ts -> q < u
  end.
Proof.
  induction ts as [|x ts IH]; simpl.
  - intros u Hu. apply elem_of_nil in Hu. contradiction.
  - destruct (Z.leb_spec x q) as [Hx|Hx];
      destruct (lastSampleAtOrBefore ts q) as [b|].
    + destruct IH as (Hin & Hle & Hmax). repeat split.
      * destruct (Z.max_spec x b) as [[_ ->]|[_ ->]];
          [apply list_elem_of_further, Hin | apply list_elem_of_here].
      * lia.
      * intros u Hu Huq. apply elem_of_cons in Hu as [->|Hu]; [lia|].
        specialize (Hmax u Hu Huq). lia.
    + repeat split; [apply list_elem_of_here | lia |].
      intros u Hu Huq. apply elem_of_cons in Hu as [->|Hu]; [lia|].
      specialize (IH u Hu). lia.
    + destruct IH as (Hin & Hle & Hmax). repeat split;
        [apply list_elem_of_further, Hin | lia |].
      intros u Hu Huq. apply elem_of_cons in Hu as [->|Hu]; [lia|].
      apply Hmax; assumption.
    + intros u Hu. apply elem_of_cons in Hu as [->|Hu]; [lia | apply IH, Hu].
Qed.

(** [firstSampleAtOrAfter] is the least timestamp at or after [q], and
    is absent exactly when every timestamp is before [q]. *)
Lemma firstSampleAtOrAfter_spec ts q :
  match firstSampleAtOrAfter ts q with
  | Some a => a ∈ ts /\ q <= a /\ forall u, u ∈ ts -> q <= u -> a <= u
  | None => forall u, u ∈ ts -> u < q
  end.
Proof.
  induction ts as [|x ts IH]; simpl.
  - intros u Hu. apply elem_of_nil in Hu. contradiction.
  - destruct (Z.geb_spec x q) as [Hx|Hx];
      destruct (firstSampleAtOrAfter ts q) as [a|].
    + destruct IH as (Hin & Hle & Hmin). repeat split.
      * destruct (Z.min_spec x a) as [[_ ->]|[_ ->]];
          [apply list_elem_of_here | apply list_elem_of_further, Hin].
      * lia.
      * intros u Hu Huq. apply elem_of_cons in Hu as [->|Hu]; [lia|].
        specialize (Hmin u Hu Huq). lia.
    + repeat split; [apply list_elem_of_here | lia |].
      intros u Hu Huq. apply elem_of_cons in Hu as [->|Hu]; [lia|].
      specialize (IH u Hu). lia.
    + destruct IH as (Hin & Hle & Hmin). repeat split;
        [apply list_elem_of_further, Hin | lia |].
      intros u Hu Huq. apply elem_of_cons in Hu as [->|Hu]; [lia|].
      apply Hmin; assumption.
    + intros u Hu. apply elem_of_cons in Hu as [->|Hu]; [lia | apply IH, Hu].
Qed.

(** Both depend on the set of timestamps only, not on their order. *)
Lemma lastSampleAtOrBefore_perm ts ts' q :
  ts ≡ₚ ts' -> lastSampleAtOrBefore ts q = lastSampleAtOrBefore ts' q.
Proof.
  intros Hperm.
  pose proof (lastSampleAtOrBefore_spec ts q) as H.
  pose proof (lastSampleAtOrBefore_spec ts' q) as H'.
  destruct (lastSampleAtOrBefore ts q) as [b|],
           (lastSampleAtOrBefore ts' q) as [b'|].
  - destruct H as (Hin & Hle & Hmax), H' as (Hin' & Hle' & Hmax').
    f_equal. apply Z.le_antisymm.
    + apply Hmax'; [rewrite <- Hperm; exact Hin | exact Hle].
    + apply Hmax; [rewrite Hperm; exact Hin' | exact Hle'].
  - destruct H as (Hin & Hle & _). rewrite Hperm in Hin.
    specialize (H' b Hin). lia.
  - destruct H' as (Hin' & Hle' & _). rewrite <- Hperm in Hin'.
    specialize (H b' Hin'). lia.
  - reflexivity.
Qed.

Lemma firstSampleAtOrAfter_perm ts ts' q :
  ts ≡ₚ ts' -> firstSampleAtOrAfter ts q = firstSampleAtOrAfter ts' q.
Proof.
  intros Hperm.
  pose proof (firstSampleAtOrAfter_spec ts q) as H.
  pose proof (firstSampleAtOrAfter_spec ts' q) as H'.
  destruct (firstSampleAtOrAfter ts q) as [a|],
           (firstSampleAtOrAfter ts' q) as [a'|].
  - destruct H as (Hin & Hle & Hmin), H' as (Hin' & Hle' & Hmin').
    f_equal. apply Z.le_antisymm.
    + apply Hmin; [rewrite Hperm; exact Hin' | exact Hle'].
    + apply Hmin'; [rewrite <- Hperm; exact Hin | exact Hle].
  - destruct H as (Hin & Hle & _). rewrite Hperm in Hin.
    specialize (H' a Hin). lia.
  - destruct H' as (Hin' & Hle' & _). rewrite <- Hperm in Hin'.
    specialize (H a' Hin'). lia.
  - reflexivity.
Qed.

(** Over timestamps in ascending order the scan returns the last sample
    at or before [q], or what [before] held on entry when there is none,
    and the first sample at or after [q]. *)
Lemma bracket_scan_sorted used_dts q acc :
  StronglySorted Z.le used_dts ->
  bracket_scan used_dts q acc
  = (match lastSampleAtOrBefore used_dts q with
     | Some b => Some b
     | None => acc
     end,
     firstSampleAtOrAfter used_dts q).
Proof.
  intros Hsorted. revert acc.
  induction Hsorted as [|u rest Hrest IH Hall]; intros acc; [reflexivity|].
  rewrite bracket_scan_cons, IH. clear IH. simpl.
  rewrite Forall_forall in Hall.
  pose proof (lastSampleAtOrBefore_spec rest q) as Hlast.
  pose proof (firstSampleAtOrAfter_spec rest q) as Hfirst.
  destruct (Z.geb_spec u q) as [Hge|Hlt], (Z.leb_spec u q) as [Hle|Hgt];
    try lia;
    destruct (lastSampleAtOrBefore rest q) as [b|],
             (firstSampleAtOrAfter rest q) as [a|];
    repeat match goal with
           | H : _ /\ _ |- _ => destruct H
           | H : ?x ∈ rest |- _ => apply Hall in H
           end;
    f_equal; f_equal; lia.
Qed.

(** Had the scan run over [sorted(used_dts)], it would return the pair
    of the specification for every set of samples and every query
    time. *)
Lemma bracket_of_sorted used_dts q :
  bracket (sorted used_dts) q
  = (lastSampleAtOrBefore used_dts q, firstSampleAtOrAfter used_dts q).
Proof.
  unfold bracket, sorted.
  rewrite bracket_scan_sorted by (apply StronglySorted_merge_sort; apply _).
  rewrite (lastSampleAtOrBefore_perm _ used_dts q)
    by apply merge_sort_Permutation.
  rewrite (firstSampleAtOrAfter_perm _ used_dts q)
    by apply merge_sort_Permutation.
  destruct (lastSampleAtOrBefore used_dts q); reflexivity.
Qed.

End Chronological.

(** C3: with the two recordings, [used_dts] is in the order of insertion,
    09:00, 12:00, 10:00, 11:00, and differs from its sorted copy.  For a
    photograph of 10:30, inside the span of the track, the scan stops at
    12:00 and returns (09:00, 12:00); the last sample at or before 10:30
    is the one of 10:00 and the first at or after it the one of 11:00,
    which is what the scan over the sorted copy returns.  The run writes
    the position interpolated between 09:00 and 12:00. *)
Theorem bracket_scans_in_insertion_order :
  (load_gpx_files two_loggers).2 = [at_ 9 0 0; at_ 12 0 0; at_ 10 0 0; at_ 11 0 0]
  /\ sorted (load_gpx_files two_loggers).2
     = [at_ 9 0 0; at_ 10 0 0; at_ 11 0 0; at_ 12 0 0]
  /\ bracket (load_gpx_files two_loggers).2 (at_ 10 30 0)
     = (Some (at_ 9 0 0), Some (at_ 12 0 0))
  /\ (lastSampleAtOrBefore (load_gpx_files two_loggers).2 (at_ 10 30 0),
      firstSampleAtOrAfter (load_gpx_files two_loggers).2 (at_ 10 30 0))
     = (Some (at_ 10 0 0), Some (at_ 11 0 0))
  /\ bracket (sorted (load_gpx_files two_loggers).2) (at_ 10 30 0)
     = (Some (at_ 10 0 0), Some (at_ 11 0 0))
  /\ adjust_main Attrs store_set two_loggers [photo_at "p.jpg" (at_ 10 30 0)] "" 0
     = ([PrintArgs; PrintProcessingGPX "a.gpx"; PrintProcessingGPX "b.gpx";
         PrintGPXCount 4;
         PrintProcessingImage "p.jpg";
         PrintDT (at_ 10 30 0) (at_ 9 0 0) (at_ 12 0 0);
         WriteFile "p.jpg"
           [("gps_version_id", VInt 2);
            ("gps_latitude_ref", VStr "N");
            ("gps_latitude", VTriple (10.0, 0.0, 0.0)%float);
            ("gps_longitude_ref", VStr "E");
            ("gps_longitude", VTriple (10.0, 0.0, 0.0)%float);
            ("gps_altitude_ref", VInt 0);
            ("gps_altitude", VFloat 250);
            ("gps_timestamp", VTriple (10.0, 30.0, 0.0)%float);
            ("gps_datestamp", VStr "2021:08:02")]],
        None).
Proof. repeat split; vm_compute; reflexivity. Qed.

(** * Further properties of the code *)

(** ** What the index holds *)

Section Index.

Implicit Types (st : gmap Z (GPXTrackPoint * Path) * list Z)
  (entries : list (GPXTrackPoint * Path)).

Lemma fold_left_concat_map {A B C : Type} (f : A -> C -> A) (g : B -> list C)
    (l : list B) (a : A) :
  fold_left f (concat (map g l)) a
  = fold_left (fun a x => fold_left f (g x) a) l a.
Proof.
  revert a. induction l as [|x l IH]; intros a; simpl; [reflexivity|].
  rewrite fold_left_app. apply IH.
Qed.

Lemma fold_left_map {A B C : Type} (f : A -> C -> A) (g : B -> C)
    (l : list B) (a : A) :
  fold_left f (map g l) a = fold_left (fun a x => f a (g x)) l a.
Proof.
  revert a. induction l as [|x l IH]; intros a; simpl; [reflexivity|apply IH].
Qed.

Lemma fold_left_ext {A B : Type} (f g : A -> B -> A) (l : list B) (a : A) :
  (forall a b, f a b = g a b) -> fold_left f l a = fold_left g l a.
Proof.
  intros Hfg. revert a. induction l as [|x l IH]; intros a; simpl;
    [reflexivity|]. rewrite Hfg. apply IH.
Qed.

(** The four nested loops are one loop over [points_in_order]. *)
Lemma load_gpx_files_flat gpx_files :
  load_gpx_files gpx_files
  = fold_left file_entry (points_in_order gpx_files) (∅, []).
Proof.
  unfold load_gpx_files, points_in_order.
  rewrite fold_left_concat_map. apply fold_left_ext. intros st [f gpx].
  unfold load_gpx. simpl. rewrite fold_left_map, !fold_left_concat_map.
  apply fold_left_ext. intros st' track. unfold load_track.
  apply fold_left_ext. intros st'' segment. reflexivity.
Qed.

Lemma file_entries_snoc entries entry st :
  fold_left file_entry (entries ++ [entry]) st
  = file_entry (fold_left file_entry entries st) entry.
Proof. rewrite fold_left_app. reflexivity. Qed.

Lemma file_entries_used entries st :
  (fold_left file_entry entries st).2
  = st.2 ++ map (fun entry => time entry.1) entries.
Proof.
  induction entries as [|entry entries IH] using rev_ind; simpl.
  - symmetry. apply app_nil_r.
  - rewrite file_entries_snoc, map_app, app_assoc, <- IH. reflexivity.
Qed.

Lemma file_entries_lookup entries st t :
  (fold_left file_entry entries st).1 !! t
  = match last (filter (fun entry => time entry.1 = t) entries) with
    | Some entry => Some entry
    | None => st.1 !! t
    end.
Proof.
  induction entries as [|[p f] entries IH] using rev_ind; [reflexivity|].
  rewrite file_entries_snoc, filter_app. unfold file_entry at 1. simpl.
  rewrite lookup_insert, filter_cons, filter_nil. simpl.
  destruct (decide (time p = t)) as [Heq|Hne]; simpl.
  - rewrite last_snoc. reflexivity.
  - rewrite app_nil_r. exact IH.
Qed.

Lemma remove_dups_length_le {A : Type} `{EqDecision A} (l : list A) :
  (length (remove_dups l) <= length l)%nat.
Proof.
  induction l as [|x l IH]; simpl; [lia|].
  destruct (decide_rel elem_of x l); simpl; lia.
Qed.

End Index.

(** X1: [used_dts] holds the time of every point of every file, once per
    point, in the order of the files, tracks, segments and points; two
    points with the same time give two entries. *)
Theorem used_dts_in_insertion_order (gpx_files : list (Path * GPX)) :
  (load_gpx_files gpx_files).2
  = map (fun entry => time entry.1) (points_in_order gpx_files).
Proof. rewrite load_gpx_files_flat. apply file_entries_used. Qed.

(** X2: [gpx_points] files under each timestamp the last point read
    with that time, with the file it was read from: a later point
    replaces an earlier one with the same time, and a timestamp that no
    point has is not a key. *)
Theorem gpx_points_last_point_wins (gpx_files : list (Path * GPX)) (t : Z) :
  (load_gpx_files gpx_files).1 !! t
  = last (filter (fun entry => time entry.1 = t) (points_in_order gpx_files)).
Proof.
  rewrite load_gpx_files_flat, file_entries_lookup. simpl.
  rewrite lookup_empty. destruct (last _); reflexivity.
Qed.

(** X3: the keys of [gpx_points] are exactly the timestamps of
    [used_dts], and the number printed on line 182 is the number of
    distinct timestamps, never more than the number of points. *)
Theorem gpx_points_keys_are_used_dts (gpx_files : list (Path * GPX)) :
  (forall t, is_Some ((load_gpx_files gpx_files).1 !! t)
             <-> t ∈ (load_gpx_files gpx_files).2)
  /\ size (load_gpx_files gpx_files).1
     = length (remove_dups (load_gpx_files gpx_files).2)
  /\ (size (load_gpx_files gpx_files).1
      <= length (points_in_order gpx_files))%nat.
Proof.
  assert (Hkeys : forall t, is_Some ((load_gpx_files gpx_files).1 !! t)
                            <-> t ∈ (load_gpx_files gpx_files).2).
  { intros t. rewrite load_gpx_files_flat, file_entries_lookup, file_entries_used.
    simpl. rewrite lookup_empty, list_elem_of_fmap. split.
    - destruct (last _) as [entry'|] eqn:Hlast; [|intros [? ?]; discriminate].
      intros _. apply last_Some_elem_of in Hlast.
      apply list_elem_of_filter in Hlast as [Ht Hin]. eauto.
    - intros (entry & -> & Hin).
      assert (Hin' : entry ∈ filter (fun e => time e.1 = time entry.1)
                                    (points_in_order gpx_files))
        by (apply list_elem_of_filter; auto).
      destruct (filter _ _) as [|x l] using rev_ind.
      + apply elem_of_nil in Hin'. contradiction.
      + rewrite last_snoc. eauto. }
  assert (Hsize : size (load_gpx_files gpx_files).1
                  = length (remove_dups (load_gpx_files gpx_files).2)).
  { rewrite <- size_dom.
    assert (Hdom : dom (load_gpx_files gpx_files).1
                   = list_to_set (remove_dups (load_gpx_files gpx_files).2)).
    { apply set_eq. intros t.
      rewrite elem_of_dom, Hkeys, elem_of_list_to_set, elem_of_remove_dups.
      reflexivity. }
    rewrite Hdom. apply size_list_to_set, NoDup_remove_dups. }
  split; [exact Hkeys|]. split; [exact Hsize|].
  rewrite Hsize, load_gpx_files_flat, file_entries_used. simpl.
  etrans; [apply remove_dups_length_le|]. rewrite length_map. reflexivity.
Qed.

(** ** What the scan returns, in terms of the order of insertion *)

Section ScanShape.

Implicit Types (l pre post : list Z) (q u a b : Z) (acc : option Z).

(** The scan over timestamps that are all before [q], followed by one
    that is not. *)
Lemma bracket_scan_found pre a post q acc :
  Forall (fun u => u < q) pre -> q <= a ->
  bracket_scan (pre ++ a :: post) q acc
  = (if a <=? q then Some a
     else match last pre with Some b => Some b | None => acc end,
     Some a).
Proof.
  intros Hpre Ha. revert acc.
  induction Hpre as [|u pre Hu _ IH]; intros acc.
  - simpl. destruct (Z.geb_spec a q); [reflexivity | lia].
  - rewrite <- app_comm_cons, bracket_scan_cons.
    destruct (Z.geb_spec u q); [lia|].
    destruct (Z.leb_spec u q); [|lia].
    rewrite IH. destruct pre as [|u' pre']; [reflexivity|].
    change (last (u :: u' :: pre')) with (last (u' :: pre')).
    destruct (last (u' :: pre')) eqn:Hlast; [reflexivity|].
    apply last_None in Hlast. discriminate.
Qed.

(** An [after] is the first timestamp, in the order of [l], that is not
    before [q]. *)
Lemma bracket_scan_after_inv l q acc ob a :
  bracket_scan l q acc = (ob, Some a) ->
  exists pre post, l = pre ++ a :: post /\ Forall (fun u => u < q) pre /\ q <= a.
Proof.
  revert acc. induction l as [|u l IH]; intros acc Hscan; [discriminate|].
  rewrite bracket_scan_cons in Hscan.
  destruct (Z.geb_spec u q) as [Hge|Hlt].
  - injection Hscan as _ <-. exists [], l. repeat split; [constructor | exact Hge].
  - destruct (IH _ Hscan) as (pre & post & -> & Hpre & Ha).
    exists (u :: pre), post. repeat split; [constructor; assumption | exact Ha].
Qed.

(** Once [before] is set it stays set. *)
Lemma bracket_scan_before_stays l q b :
  (bracket_scan l q (Some b)).1 <> None.
Proof.
  revert b. induction l as [|u l IH]; intros b; [discriminate|].
  rewrite bracket_scan_cons.
  destruct (u >=? q), (u <=? q); simpl; try discriminate; apply IH.
Qed.

Lemma bracket_scan_no_after l q acc :
  (bracket_scan l q acc).2 = None -> Forall (fun u => u < q) l.
Proof.
  revert acc. induction l as [|u l IH]; intros acc Hnone; [constructor|].
  rewrite bracket_scan_cons in Hnone.
  destruct (Z.geb_spec u q); [discriminate|].
  constructor; [assumption | eapply IH, Hnone].
Qed.

End ScanShape.

(** X4: the scan yields a pair in exactly two situations, read in the
    order of insertion: the first timestamp not before the query time
    equals it, and is returned twice; or it lies after the query time and
    is returned together with the timestamp inserted just before it.  The
    two timestamps of a pair are therefore neighbours in [used_dts], and
    either both equal the query time or lie strictly around it. *)
Theorem bracket_pair_characterised (used_dts : list Z) (exif_dt before after : Z) :
  bracket used_dts exif_dt = (Some before, Some after)
  <-> (before = exif_dt /\ after = exif_dt
       /\ exists pre post,
            used_dts = pre ++ exif_dt :: post
            /\ Forall (fun u => u < exif_dt) pre)
      \/ (before < exif_dt < after
          /\ exists pre post,
               used_dts = pre ++ before :: after :: post
               /\ Forall (fun u => u < exif_dt) pre).
Proof.
  unfold bracket. split.
  - intros Hscan.
    destruct (bracket_scan_after_inv _ _ _ _ _ Hscan)
      as (pre & post & -> & Hpre & Ha).
    rewrite (bracket_scan_found pre after post exif_dt None Hpre Ha) in Hscan.
    destruct (Z.leb_spec after exif_dt) as [Hle|Hgt].
    + left. injection Hscan as <-.
      assert (after = exif_dt) as -> by lia.
      repeat split. exists pre, post. split; [reflexivity | exact Hpre].
    + right. destruct (last pre) as [b|] eqn:Hlast; [|discriminate].
      injection Hscan as ->.
      apply last_Some in Hlast as [pre' ->].
      apply Forall_app in Hpre as [Hpre' Hb].
      rewrite Forall_singleton in Hb.
      split; [lia|]. exists pre', post. split; [|exact Hpre'].
      rewrite <- app_assoc. reflexivity.
  - intros [(-> & -> & pre & post & -> & Hpre)
           | (Hord & pre & post & -> & Hpre)].
    + rewrite bracket_scan_found by (assumption || lia).
      destruct (Z.leb_spec exif_dt exif_dt); [reflexivity | lia].
    + replace (pre ++ before :: after :: post)
        with ((pre ++ [before]) ++ after :: post)
        by (rewrite <- app_assoc; reflexivity).
      rewrite bracket_scan_found.
      * destruct (Z.leb_spec after exif_dt); [lia|].
        rewrite last_snoc. reflexivity.
      * apply Forall_app. split; [exact Hpre|].
        apply Forall_singleton. lia.
      * lia.
Qed.

(** For a photograph that was read, lines 212-223 skip it exactly when
    the first timestamp of [used_dts], in the order of insertion, lies
    after its adjusted time, or when every timestamp lies before it, which
    includes an empty index. *)
Theorem skipped_iff_first_after_or_all_before
    (Image : Type) (img_set : Image -> string -> exif_value -> result Image)
    (gpx_points : gmap Z (GPXTrackPoint * Path)) (used_dts : list Z)
    (timezone_adjustment : Z) (photo : Photo Image) :
  process_image Image img_set gpx_points used_dts timezone_adjustment photo
  = ([PrintProcessingImage (img_file photo); PrintSkipping (img_file photo)],
     None)
  <-> (exists u rest,
         used_dts = u :: rest
         /\ dt_add (datetime_digitized photo)
              (timedelta_hours timezone_adjustment) < u)
      \/ Forall (fun u => u < dt_add (datetime_digitized photo)
                                (timedelta_hours timezone_adjustment))
           used_dts.
Proof.
  unfold process_image.
  set (exif_dt := dt_add (datetime_digitized photo)
                    (timedelta_hours timezone_adjustment)).
  split.
  - intros Hskip.
    destruct (bracket used_dts exif_dt) as [ob oa] eqn:Hscan.
    destruct oa as [a|].
    + destruct ob as [b|].
      * destruct (try_adjust _ _ _ _ _ _ _); [discriminate|].
        destruct (is_RuntimeError e); discriminate.
      * left. unfold bracket in Hscan.
        destruct used_dts as [|u rest]; [discriminate|].
        rewrite bracket_scan_cons in Hscan.
        destruct (Z.geb_spec u exif_dt) as [Hge|Hlt],
                 (Z.leb_spec u exif_dt) as [Hle|Hgt]; try lia.
        -- discriminate.
        -- exists u, rest. split; [reflexivity | exact Hgt].
        -- pose proof (bracket_scan_before_stays rest exif_dt u) as Hstays.
           rewrite Hscan in Hstays. contradiction.
    + right. apply (bracket_scan_no_after used_dts exif_dt None).
      unfold bracket in Hscan. rewrite Hscan. reflexivity.
  - intros [(u & rest & -> & Hu) | Hall].
    + unfold bracket. rewrite bracket_scan_cons.
      destruct (Z.geb_spec u exif_dt); [|lia].
      destruct (Z.leb_spec u exif_dt); [lia | reflexivity].
    + pose proof (bracket_scan_all_before used_dts exif_dt None Hall) as Hnone.
      unfold bracket. destruct (bracket_scan used_dts exif_dt None) as [ob oa].
      simpl in Hnone. subst oa. destruct ob; reflexivity.
Qed.

(** X6: when the timestamps were inserted in chronological order, the
    scan returns the last sample at or before the query time and the
    first one at or after it, for every query time. *)
Theorem bracket_exact_on_chronological_input (used_dts : list Z) (exif_dt : Z) :
  StronglySorted Z.le used_dts ->
  bracket used_dts exif_dt
  = (lastSampleAtOrBefore used_dts exif_dt,
     firstSampleAtOrAfter used_dts exif_dt).
Proof.
  intros Hsorted. unfold bracket. rewrite bracket_scan_sorted by exact Hsorted.
  destruct (lastSampleAtOrBefore used_dts exif_dt); reflexivity.
Qed.

Lemma bracket_exact_on_chronological_input_witness :
  bracket (load_gpx_files one_hour).2 (at_ 10 30 0)
  = (lastSampleAtOrBefore (load_gpx_files one_hour).2 (at_ 10 30 0),
     firstSampleAtOrAfter (load_gpx_files one_hour).2 (at_ 10 30 0)).
Proof.
  apply (bracket_exact_on_chronological_input
           (load_gpx_files one_hour).2 (at_ 10 30 0)).
  vm_compute. repeat constructor; discriminate.
Defined.

(** ** What [interpolate] returns and how it fails *)

(** Equal samples have equal times. *)
Lemma GPXTrackPoint_eqb_time (p q : GPXTrackPoint) :
  GPXTrackPoint_eqb p q = true -> time p = time q.
Proof.
  unfold GPXTrackPoint_eqb. intros H.
  repeat (apply andb_prop in H as [H ?]).
  apply Z.eqb_eq. assumption.
Qed.

(** X7: [interpolate] raises [AssertionError] exactly when [dt] lies
    outside the interval from [before.time] to [after.time]. *)
Theorem interpolate_asserts_iff_outside (before after : GPXTrackPoint) (dt : Z) :
  (exists msg, interpolate before after dt = Raise (Exn AssertionError msg))
  <-> ~ (time before <= dt <= time after).
Proof.
  split.
  - intros [msg Hraise] Hin.
    apply (interpolate_pre_no_assertion before after dt msg); [|exact Hraise].
    unfold interpolate_pre. apply andb_true_iff. split; apply Z.leb_le; lia.
  - intros Hout. exists "before <= dt <= after". unfold interpolate.
    replace (interpolate_pre before after dt) with false; [reflexivity|].
    symmetry. unfold interpolate_pre. apply andb_false_iff.
    rewrite !Z.leb_gt. lia.
Qed.

(** X8: a failure of [interpolate] is an [AssertionError] for a [dt]
    outside the interval, a [ZeroDivisionError] for a denominator that
    converts to zero, or a [TypeError] for an absent elevation of [after]
    beside a present, nonzero elevation of [before]; it is never a
    [RuntimeError], so the handler of [adjust_main] never catches it. *)
Theorem interpolate_failure_kinds (before after : GPXTrackPoint) (dt : Z) (e : exn) :
  interpolate before after dt = Raise e ->
  is_RuntimeError e = false
  /\ ((exn_kind e = AssertionError /\ ~ (time before <= dt <= time after))
      \/ (exn_kind e = ZeroDivisionError
          /\ (float_of_int (seconds (dt_sub (time after) (time before))) =? 0)%float
             = true)
      \/ (exn_kind e = TypeError
          /\ truthy (elevation before) = true /\ elevation after = None)).
Proof.
  unfold interpolate.
  destruct (interpolate_pre before after dt) eqn:Hpre; simpl.
  - destruct (GPXTrackPoint_eqb before after); [discriminate|].
    unfold interpolate_ratio, truediv.
    destruct (_ =? _)%float eqn:Hzero; simpl.
    + intros H. injection H as <-. split; [reflexivity|]. right. left.
      split; reflexivity.
    + unfold interpolate_elevation.
      destruct (truthy (elevation before)) eqn:Htruthy; [|discriminate].
      destruct (elevation before) as [be|]; [|discriminate].
      destruct (elevation after) as [ae|]; [discriminate|].
      simpl. intros H. injection H as <-. split; [reflexivity|].
      right. right. repeat split; assumption.
  - intros H. injection H as <-. split; [reflexivity|]. left.
    split; [reflexivity|]. unfold interpolate_pre in Hpre.
    apply andb_false_iff in Hpre. rewrite !Z.leb_gt in Hpre. lia.
Qed.

Lemma interpolate_failure_kinds_witness :
  is_RuntimeError (Exn ZeroDivisionError "float division by zero") = false
  /\ ((exn_kind (Exn ZeroDivisionError "float division by zero") = AssertionError
       /\ ~ (time fast_before <= at_ 10 0 0 <= time fast_after))
      \/ (exn_kind (Exn ZeroDivisionError "float division by zero")
          = ZeroDivisionError
          /\ (float_of_int (seconds (dt_sub (time fast_after) (time fast_before)))
              =? 0)%float = true)
      \/ (exn_kind (Exn ZeroDivisionError "float division by zero") = TypeError
          /\ truthy (elevation fast_before) = true
          /\ elevation fast_after = None)).
Proof.
  apply (interpolate_failure_kinds fast_before fast_after (at_ 10 0 0)).
  vm_compute. reflexivity.
Defined.

(** X9: every point that [interpolate] returns, built or handed back,
    carries the time [dt] and the symbol, comment, dilutions, speed and
    name of [before]. *)
Theorem interpolate_result_time_and_passthrough
    (before after p : GPXTrackPoint) (dt : Z) :
  interpolate before after dt = Ok p ->
  time p = dt
  /\ symbol p = symbol before
  /\ comment p = comment before
  /\ horizontal_dilution p = horizontal_dilution before
  /\ vertical_dilution p = vertical_dilution before
  /\ position_dilution p = position_dilution before
  /\ speed p = speed before
  /\ name p = name before.
Proof.
  unfold interpolate.
  destruct (interpolate_pre before after dt) eqn:Hpre; [|discriminate]. simpl.
  destruct (GPXTrackPoint_eqb before after) eqn:Heq.
  - intros H. injection H as <-. repeat split.
    apply GPXTrackPoint_eqb_time in Heq. unfold interpolate_pre in Hpre.
    apply andb_true_iff in Hpre. rewrite !Z.leb_le in Hpre. lia.
  - destruct (interpolate_ratio before after dt) as [ratio|]; [|discriminate].
    simpl.
    destruct (interpolate_elevation before after ratio) as [ele|];
      [|discriminate].
    simpl. intros H. injection H as <-. repeat split.
Qed.

Lemma interpolate_result_time_and_passthrough_witness :
  time (sample 10.5 10.5 None (at_ 10 30 0)) = at_ 10 30 0
  /\ symbol (sample 10.5 10.5 None (at_ 10 30 0))
     = symbol (sample 10 10 None (at_ 10 0 0))
  /\ comment (sample 10.5 10.5 None (at_ 10 30 0))
     = comment (sample 10 10 None (at_ 10 0 0))
  /\ horizontal_dilution (sample 10.5 10.5 None (at_ 10 30 0))
     = horizontal_dilution (sample 10 10 None (at_ 10 0 0))
  /\ vertical_dilution (sample 10.5 10.5 None (at_ 10 30 0))
     = vertical_dilution (sample 10 10 None (at_ 10 0 0))
  /\ position_dilution (sample 10.5 10.5 None (at_ 10 30 0))
     = position_dilution (sample 10 10 None (at_ 10 0 0))
  /\ speed (sample 10.5 10.5 None (at_ 10 30 0))
     = speed (sample 10 10 None (at_ 10 0 0))
  /\ name (sample 10.5 10.5 None (at_ 10 30 0))
     = name (sample 10 10 None (at_ 10 0 0)).
Proof.
  apply (interpolate_result_time_and_passthrough
           (sample 10 10 None (at_ 10 0 0)) (sample 11 11 None (at_ 11 0 0))
           (sample 10.5 10.5 None (at_ 10 30 0)) (at_ 10 30 0)).
  vm_compute. reflexivity.
Defined.

(** The zero denominator of the two fixes 0.6 s apart. *)
Lemma interpolate_zero_seconds_witness :
  interpolate fast_before fast_after (at_ 10 0 0)
  = Raise (Exn ZeroDivisionError "float division by zero").
Proof.
  apply (interpolate_zero_seconds fast_before fast_after (at_ 10 0 0));
    vm_compute; reflexivity.
Defined.

(** ** What [adjust_image] writes *)

(** X11: with a writer that accepts every value, [adjust_image] appends
    exactly nine attributes, in the order of lines 147-156, and leaves the
    attributes that were there; it fails, before completing, when the
    latitude cannot be encoded, else when the longitude cannot be encoded,
    else when the elevation is absent. *)
Theorem adjust_image_with_accepting_writer
    (img : list (string * exif_value)) (point : GPXTrackPoint) :
  adjust_image Attrs store_set img point
  = match gpx_to_exif (latitude point) with
    | Raise e => Raise e
    | Ok lat =>
        match gpx_to_exif (longitude point) with
        | Raise e => Raise e
        | Ok lon =>
            match elevation point with
            | None =>
                Raise (Exn TypeError
                  "'>' not supported between instances of 'NoneType' and 'int'")
            | Some ele =>
                Ok (img ++
                    [("gps_version_id", VInt 2);
                     ("gps_latitude_ref", VStr (latitude_ref (latitude point)));
                     ("gps_latitude", VTriple lat);
                     ("gps_longitude_ref", VStr (longitude_ref (longitude point)));
                     ("gps_longitude", VTriple lon);
                     ("gps_altitude_ref", VInt (altitude_ref ele));
                     ("gps_altitude", VFloat ele);
                     ("gps_timestamp",
                      VTriple (timestamp (datetime_to_exif (time point) 0)));
                     ("gps_datestamp",
                      VStr (datestamp (datetime_to_exif (time point) 0)))])
            end
        end
    end.
Proof.
  unfold adjust_image, store_set. simpl.
  destruct (gpx_to_exif (latitude point)) as [lat|e]; [|reflexivity]. simpl.
  destruct (gpx_to_exif (longitude point)) as [lon|e]; [|reflexivity]. simpl.
  destruct (elevation point) as [ele|]; [|reflexivity]. simpl.
  rewrite <- !app_assoc. reflexivity.
Qed.

(** ** What a run prints and writes *)

Section Runs.

Context {Image : Type}.
Variable img_set : Image -> string -> exif_value -> result Image.

(** The encoder raises three kinds of exception, none a [RuntimeError]. *)
Lemma gpx_to_exif_failure_kinds (c : float) (e : exn) :
  gpx_to_exif c = Raise e -> is_RuntimeError e = false.
Proof.
  unfold gpx_to_exif, int, ceil, truediv.
  repeat (match goal with
          | |- context [match Prim2SF ?x with _ => _ end] =>
              destruct (Prim2SF x)
          | |- context [let '(_, _) := ?p in _] => destruct p
          | |- context [if ?b then Raise _ else _] => destruct b
          end; simpl);
    intros H; try discriminate; injection H as <-; reflexivity.
Qed.

(** Nor does [interpolate] raise a [RuntimeError]. *)
Lemma interpolate_never_runtime (before after : GPXTrackPoint) (dt : Z) (e : exn) :
  interpolate before after dt = Raise e -> is_RuntimeError e = false.
Proof.
  unfold interpolate, interpolate_ratio, truediv, interpolate_elevation.
  destruct (interpolate_pre before after dt); simpl;
    [|intros H; injection H as <-; reflexivity].
  destruct (GPXTrackPoint_eqb before after); [discriminate|].
  destruct (_ =? _)%float; simpl; [intros H; injection H as <-; reflexivity|].
  destruct (truthy (elevation before)); [|discriminate].
  destruct (elevation before), (elevation after); simpl;
    try discriminate; intros H; injection H as <-; reflexivity.
Qed.

(** What is raised under the [try] without being a writer's exception is
    no [RuntimeError]. *)
Lemma try_adjust_failure_kinds gpx_points before after exif_dt photo e :
  (forall img k v e', img_set img k v = Raise e' -> is_RuntimeError e' = false) ->
  try_adjust Image img_set gpx_points before after exif_dt photo = Raise e ->
  is_RuntimeError e = false.
Proof.
  intros Hwriter. unfold try_adjust, getitem0.
  destruct (gpx_points !! before); simpl;
    [|intros H; injection H as <-; reflexivity].
  destruct (gpx_points !! after); simpl;
    [|intros H; injection H as <-; reflexivity].
  destruct (interpolate _ _ _) as [point|e'] eqn:Hinterpolate; simpl.
  - unfold adjust_image.
    repeat (match goal with
            | |- context [mbind _ (img_set ?i ?k ?v)] =>
                let Hset := fresh "Hset" in
                destruct (img_set i k v) eqn:Hset; simpl;
                [|intros H; injection H as <-; eapply Hwriter, Hset]
            | |- context [mbind _ (gpx_to_exif ?c)] =>
                let Henc := fresh "Henc" in
                destruct (gpx_to_exif c) eqn:Henc; simpl;
                [|intros H; injection H as <-;
                  eapply gpx_to_exif_failure_kinds, Henc]
            | |- context [elevation point] =>
                destruct (elevation point); simpl;
                [|intros H; injection H as <-; reflexivity]
            end).
    intros H. eapply Hwriter, H.
  - intros H. injection H as <-.
    eapply interpolate_never_runtime, Hinterpolate.
Qed.

(** The run over two lists of photographs in a row. *)
Lemma process_images_app gpx_points used_dts tz (ps qs : list (Photo Image)) :
  process_images Image img_set gpx_points used_dts tz (ps ++ qs)
  = match process_images Image img_set gpx_points used_dts tz ps with
    | (events, Some e) => (events, Some e)
    | (events, None) =>
        (events ++ (process_images Image img_set gpx_points used_dts tz qs).1,
         (process_images Image img_set gpx_points used_dts tz qs).2)
    end.
Proof.
  induction ps as [|p ps IH]; simpl.
  - destruct (process_images _ _ _ _ _ qs). reflexivity.
  - destruct (process_image _ _ _ _ _ p) as [events [e|]]; [reflexivity|].
    rewrite IH.
    destruct (process_images _ _ _ _ _ ps) as [events' [e|]]; [reflexivity|].
    simpl. rewrite app_assoc. reflexivity.
Qed.

End Runs.

(** X12: when the writer raises no [RuntimeError], no run prints an
    error line: every exception that interpolation and encoding raise by
    themselves is of another class, passes the handler of line 231 and
    ends the run. *)
Theorem no_error_line_without_writer_runtime_error
    (Image : Type) (img_set : Image -> string -> exif_value -> result Image)
    (gpx_files : list (Path * GPX)) (photos : list (Photo Image))
    (stats_file : string) (timezone_adjustment : Z) :
  (forall img k v e, img_set img k v = Raise e -> is_RuntimeError e = false) ->
  forall f e,
    PrintError f e
    ∉ (adjust_main Image img_set gpx_files photos stats_file
         timezone_adjustment).1.
Proof.
  intros Hwriter f e. unfold adjust_main.
  destruct (load_gpx_files gpx_files) as [gpx_points used_dts].
  assert (Hloop : PrintError f e
                  ∉ (process_images Image img_set gpx_points used_dts
                       timezone_adjustment photos).1).
  { induction photos as [|photo rest IH]; simpl; [apply not_elem_of_nil|].
    assert (Hone : PrintError f e
                   ∉ (process_image Image img_set gpx_points used_dts
                        timezone_adjustment photo).1).
    { unfold process_image.
      destruct (bracket used_dts _) as [[b|] [a|]]; simpl;
        try (rewrite !not_elem_of_cons; repeat split;
             [discriminate | discriminate | apply not_elem_of_nil]).
      destruct (try_adjust _ _ _ _ _ _ _) as [img'|e'] eqn:Htry; simpl.
      - rewrite !not_elem_of_cons. repeat split; try discriminate.
        apply not_elem_of_nil.
      - rewrite (try_adjust_failure_kinds img_set _ _ _ _ _ _ Hwriter Htry).
        simpl. rewrite !not_elem_of_cons. repeat split; try discriminate.
        apply not_elem_of_nil. }
    destruct (process_image _ _ _ _ _ photo) as [events [e'|]]; simpl in *;
      [exact Hone|].
    destruct (process_images _ _ _ _ _ rest) as [events' raised]. simpl in *.
    rewrite not_elem_of_app. split; assumption. }
  destruct (process_images _ _ _ _ _ photos) as [events raised]. simpl in *.
  rewrite not_elem_of_cons, not_elem_of_app, not_elem_of_cons.
  repeat split; try discriminate; [|exact Hloop].
  rewrite list_elem_of_fmap. intros (file & Hfile & _). discriminate.
Qed.

Lemma no_error_line_without_writer_runtime_error_witness :
  PrintError "p1.jpg"
    (Exn TypeError "'>' not supported between instances of 'NoneType' and 'int'")
  ∉ (adjust_main Attrs store_set one_hour_flat
       [photo_at "p1.jpg" (at_ 10 30 0)] "" 0).1.
Proof.
  apply (no_error_line_without_writer_runtime_error Attrs store_set
           one_hour_flat [photo_at "p1.jpg" (at_ 10 30 0)] "" 0).
  intros img k v e H. discriminate H.
Defined.

(** X13: a file is written only for a photograph of the run for which
    the scan found a pair and interpolation and [adjust_image] completed,
    and what is written is the image they produced. *)
Theorem written_files_are_adjusted_photos
    (Image : Type) (img_set : Image -> string -> exif_value -> result Image)
    (gpx_points : gmap Z (GPXTrackPoint * Path)) (used_dts : list Z)
    (timezone_adjustment : Z) (photos : list (Photo Image))
    (f : Path) (content : Image) :
  WriteFile f content
  ∈ (process_images Image img_set gpx_points used_dts timezone_adjustment
       photos).1 ->
  exists photo before after,
    photo ∈ photos /\ img_file photo = f
    /\ bracket used_dts
         (dt_add (datetime_digitized photo) (timedelta_hours timezone_adjustment))
       = (Some before, Some after)
    /\ try_adjust Image img_set gpx_points before after
         (dt_add (datetime_digitized photo) (timedelta_hours timezone_adjustment))
         photo
       = Ok content.
Proof.
  induction photos as [|photo rest IH]; simpl.
  - intros H. apply elem_of_nil in H. contradiction.
  - intros Hin.
    assert (Hone : WriteFile f content
                   ∈ (process_image Image img_set gpx_points used_dts
                        timezone_adjustment photo).1 ->
                   exists before after,
                     img_file photo = f
                     /\ bracket used_dts
                          (dt_add (datetime_digitized photo)
                             (timedelta_hours timezone_adjustment))
                        = (Some before, Some after)
                     /\ try_adjust Image img_set gpx_points before after
                          (dt_add (datetime_digitized photo)
                             (timedelta_hours timezone_adjustment)) photo
                        = Ok content).
    { unfold process_image.
      destruct (bracket used_dts _) as [[b|] [a|]]; simpl;
        try (rewrite !elem_of_cons, elem_of_nil;
             intros [H|[H|[]]]; discriminate).
      destruct (try_adjust _ _ _ _ _ _ _) as [img'|e'] eqn:Htry; simpl.
      - rewrite !elem_of_cons, elem_of_nil.
        intros [H|[H|[H|[]]]]; try discriminate.
        injection H as <- <-. exists b, a. repeat split. exact Htry.
      - destruct (is_RuntimeError e'); simpl;
          rewrite !elem_of_cons, elem_of_nil;
          [intros [H|[H|[H|[]]]] | intros [H|[H|[]]]]; discriminate. }
    destruct (process_image _ _ _ _ _ photo) as [events [e'|]]; simpl in *.
    + destruct (Hone Hin) as (b & a & H). exists photo, b, a.
      split; [apply list_elem_of_here | exact H].
    + destruct (process_images _ _ _ _ _ rest) as [events' raised].
      simpl in *. apply elem_of_app in Hin as [Hin|Hin].
      * destruct (Hone Hin) as (b & a & H). exists photo, b, a.
        split; [apply list_elem_of_here | exact H].
      * destruct (IH Hin) as (p & b & a & Hp & H). exists p, b, a.
        split; [apply list_elem_of_further, Hp | exact H].
Qed.

Lemma written_files_are_adjusted_photos_witness :
  exists photo before after,
    photo ∈ [photo_at "early.jpg" (at_ 8 0 0); photo_at "p.jpg" (at_ 10 0 0)]
    /\ img_file photo = "p.jpg"
    /\ bracket (load_gpx_files one_hour).2
         (dt_add (datetime_digitized photo) (timedelta_hours 0))
       = (Some before, Some after)
    /\ try_adjust Attrs store_set (load_gpx_files one_hour).1 before after
         (dt_add (datetime_digitized photo) (timedelta_hours 0)) photo
       = Ok [("gps_version_id", VInt 2);
             ("gps_latitude_ref", VStr "N");
             ("gps_latitude", VTriple (10.0, 0.0, 0.0)%float);
             ("gps_longitude_ref", VStr "E");
             ("gps_longitude", VTriple (10.0, 0.0, 0.0)%float);
             ("gps_altitude_ref", VInt 0);
             ("gps_altitude", VFloat 250);
             ("gps_timestamp", VTriple (10.0, 0.0, 0.0)%float);
             ("gps_datestamp", VStr "2021:08:02")].
Proof.
  apply (written_files_are_adjusted_photos Attrs store_set
           (load_gpx_files one_hour).1 (load_gpx_files one_hour).2 0
           [photo_at "early.jpg" (at_ 8 0 0); photo_at "p.jpg" (at_ 10 0 0)]).
  vm_compute. apply list_elem_of_further, list_elem_of_further,
    list_elem_of_further, list_elem_of_further, list_elem_of_here.
Defined.

(** With no point in the GPX files, lines 212-238 skip every photograph
    that was read. *)
Theorem no_points_every_photo_skipped
    (Image : Type) (img_set : Image -> string -> exif_value -> result Image)
    (gpx_files : list (Path * GPX)) (photos : list (Photo Image))
    (stats_file : string) (timezone_adjustment : Z) :
  points_in_order gpx_files = [] ->
  adjust_main Image img_set gpx_files photos stats_file timezone_adjustment
  = (PrintArgs :: map (fun f => PrintProcessingGPX f.1) gpx_files
       ++ PrintGPXCount 0
       :: concat (map (fun photo => [PrintProcessingImage (img_file photo);
                                     PrintSkipping (img_file photo)]) photos),
     None).
Proof.
  intros Hempty. unfold adjust_main.
  rewrite load_gpx_files_flat, Hempty. simpl.
  assert (Hloop : process_images Image img_set ∅ [] timezone_adjustment photos
                  = (concat (map (fun photo =>
                                    [PrintProcessingImage (img_file photo);
                                     PrintSkipping (img_file photo)]) photos),
                     None)).
  { induction photos as [|photo rest IH]; [reflexivity|].
    cbn [process_images]. unfold process_image at 1. simpl. rewrite IH.
    reflexivity. }
  rewrite Hloop. reflexivity.
Qed.

Lemma no_points_every_photo_skipped_witness :
  adjust_main Attrs store_set [("empty.gpx", {| tracks := [] |})]
    [photo_at "p1.jpg" (at_ 10 0 0); photo_at "p2.jpg" (at_ 11 0 0)] "" 0
  = ([PrintArgs; PrintProcessingGPX "empty.gpx"; PrintGPXCount 0;
      PrintProcessingImage "p1.jpg"; PrintSkipping "p1.jpg";
      PrintProcessingImage "p2.jpg"; PrintSkipping "p2.jpg"], None).
Proof.
  apply (no_points_every_photo_skipped Attrs store_set
           [("empty.gpx", {| tracks := [] |})]
           [photo_at "p1.jpg" (at_ 10 0 0); photo_at "p2.jpg" (at_ 11 0 0)] "" 0).
  reflexivity.
Defined.

(** The end of a run with the writer that rejects with [ValueError]. *)
Lemma other_error_ends_the_run_witness :
  process_images Attrs reject_set (load_gpx_files one_hour).1
    (load_gpx_files one_hour).2 0
    [photo_at "p1.jpg" (at_ 10 30 0); photo_at "p2.jpg" (at_ 10 45 0)]
  = ([PrintProcessingImage "p1.jpg";
      PrintDT (at_ 10 30 0) (at_ 10 0 0) (at_ 11 0 0)],
     Some (Exn ValueError "value rejected")).
Proof.
  apply (other_error_ends_the_run Attrs reject_set
           (load_gpx_files one_hour).1 (load_gpx_files one_hour).2 0
           (photo_at "p1.jpg" (at_ 10 30 0)) [photo_at "p2.jpg" (at_ 10 45 0)]
           (at_ 10 30 0) (at_ 10 0 0) (at_ 11 0 0)
           (Exn ValueError "value rejected")).
  - vm_compute. reflexivity.
  - vm_compute. reflexivity.
  - vm_compute. reflexivity.
  - reflexivity.
Defined.

(** ** The encoder on the binary64 values *)

Section Binary64.

Lemma Prim2SF_inj (x y : float) : Prim2SF x = Prim2SF y -> x = y.
Proof.
  intros H. rewrite <- (SF2Prim_Prim2SF x), <- (SF2Prim_Prim2SF y), H.
  reflexivity.
Qed.

(** The floats equal to zero are 0.0 and -0.0. *)
Lemma float_zero_cases (c : float) :
  (c =? 0)%float = true -> c = 0%float \/ c = (-0)%float.
Proof.
  rewrite FloatAxioms.eqb_spec. change (Prim2SF 0) with (S754_zero false).
  destruct (Prim2SF c) as [[|]|[|]| |[|] m e] eqn:Hc; cbv; try congruence;
    intros _; [right | left]; apply Prim2SF_inj; rewrite Hc; reflexivity.
Qed.

Lemma SFcompare_refl_finite (s : bool) (m : positive) (e : Z) :
  SFcompare (S754_finite s m e) (S754_finite s m e) = Some Eq.
Proof.
  simpl. rewrite Z.compare_refl, Pos.compare_cont_refl. destruct s; reflexivity.
Qed.

(** The only float that differs from itself is NaN. *)
Lemma float_nan_cases (c : float) : is_nan c = true -> c = nan.
Proof.
  unfold is_nan. rewrite FloatAxioms.eqb_spec. unfold SFeqb.
  destruct (Prim2SF c) as [[|]|[|]| |s m e] eqn:Hc;
    try rewrite SFcompare_refl_finite; try discriminate.
  intros _. apply Prim2SF_inj. rewrite Hc. reflexivity.
Qed.

Lemma float_infinity_cases (c : float) :
  is_infinity c = true -> c = infinity \/ c = neg_infinity.
Proof.
  unfold is_infinity. rewrite FloatAxioms.eqb_spec, abs_spec.
  change (Prim2SF infinity) with (S754_infinity false).
  destruct (Prim2SF c) as [[|]|[|]| |s m e] eqn:Hc; cbv; try congruence;
    intros _; [right | left]; apply Prim2SF_inj; rewrite Hc; reflexivity.
Qed.

Lemma binary_round_aux_opp (s : bool) (m e : Z) (l : location) :
  SFopp (binary_round_aux prec emax s m e l)
  = binary_round_aux prec emax (negb s) m e l.
Proof.
  unfold binary_round_aux.
  destruct (shr_fexp prec emax m e l) as [mrs' e'].
  destruct (shr_fexp prec emax _ e' loc_Exact) as [mrs'' e''].
  destruct (shr_m mrs''); [reflexivity| |reflexivity].
  destruct (e'' <=? emax - prec); reflexivity.
Qed.

Lemma SFdiv_opp_r (x y : spec_float) :
  SFdiv prec emax x (SFopp y) = SFopp (SFdiv prec emax x y).
Proof.
  destruct x as [sx|sx| |sx mx ex], y as [sy|sy| |sy my ey]; simpl;
    try reflexivity; try (destruct sx, sy; reflexivity).
  destruct (SFdiv_core_binary prec emax (Z.pos mx) ex (Z.pos my) ey)
    as [[mz ez] lz].
  rewrite binary_round_aux_opp. destruct sx, sy; reflexivity.
Qed.

Lemma SFmul_opp_l (x y : spec_float) :
  SFmul prec emax (SFopp x) y = SFopp (SFmul prec emax x y).
Proof.
  destruct x as [sx|sx| |sx mx ex], y as [sy|sy| |sy my ey]; simpl;
    try reflexivity; try (destruct sx, sy; reflexivity).
  rewrite binary_round_aux_opp. destruct sx, sy; reflexivity.
Qed.

Lemma abs_opp (c : float) : abs (- c) = abs c.
Proof.
  apply Prim2SF_inj. rewrite !abs_spec, opp_spec.
  destruct (Prim2SF c); reflexivity.
Qed.

Lemma div_opp_r (a c : float) : (a / - c = - (a / c))%float.
Proof.
  apply Prim2SF_inj. rewrite opp_spec, !div_spec, opp_spec.
  apply SFdiv_opp_r.
Qed.

Lemma mul_opp_l (x y : float) : (- x * y = - (x * y))%float.
Proof.
  apply Prim2SF_inj. rewrite opp_spec, !mul_spec, opp_spec.
  apply SFmul_opp_l.
Qed.

Lemma eqb_zero_opp (c : float) : (- c =? 0)%float = (c =? 0)%float.
Proof.
  rewrite !FloatAxioms.eqb_spec, opp_spec.
  change (Prim2SF 0) with (S754_zero false).
  destruct (Prim2SF c) as [[|]|[|]| |[|] m e]; reflexivity.
Qed.

End Binary64.

(** X16: [gpx_to_exif] returns no triple for a coordinate equal to zero,
    for NaN and for an infinity: it raises [ZeroDivisionError],
    [ValueError] and [OverflowError] respectively. *)
Theorem gpx_to_exif_undefined (c : float) :
  ((c =? 0)%float = true ->
   gpx_to_exif c = Raise (Exn ZeroDivisionError "float division by zero"))
  /\ (is_nan c = true ->
      gpx_to_exif c
      = Raise (Exn ValueError "cannot convert float NaN to integer"))
  /\ (is_infinity c = true ->
      gpx_to_exif c
      = Raise (Exn OverflowError "cannot convert float infinity to integer")).
Proof.
  repeat split.
  - intros H. destruct (float_zero_cases c H) as [-> | ->]; reflexivity.
  - intros H. rewrite (float_nan_cases c H). reflexivity.
  - intros H. destruct (float_infinity_cases c H) as [-> | ->]; reflexivity.
Qed.

Lemma gpx_to_exif_undefined_witness :
  gpx_to_exif 0 = Raise (Exn ZeroDivisionError "float division by zero")
  /\ gpx_to_exif nan
     = Raise (Exn ValueError "cannot convert float NaN to integer")
  /\ gpx_to_exif neg_infinity
     = Raise (Exn OverflowError "cannot convert float infinity to integer").
Proof.
  pose proof (gpx_to_exif_undefined 0) as [H0 _].
  pose proof (gpx_to_exif_undefined nan) as (_ & Hnan & _).
  pose proof (gpx_to_exif_undefined neg_infinity) as (_ & _ & Hinf).
  split; [|split]; [apply H0 | apply Hnan | apply Hinf]; reflexivity.
Defined.

(** X17: the two hemispheres are encoded alike: for every float [c],
    [gpx_to_exif (-c)] fails as [gpx_to_exif c] does, or returns the same
    minutes and seconds with the degrees negated. *)
Theorem gpx_to_exif_opp (c : float) :
  gpx_to_exif (- c)
  = match gpx_to_exif c with
    | Ok (d, m, s) => Ok ((- d)%float, m, s)
    | Raise e => Raise e
    end.
Proof.
  unfold gpx_to_exif. rewrite abs_opp.
  destruct (int (abs c)) as [h|e]; [simpl|reflexivity].
  destruct (int _) as [m|e]; [simpl|reflexivity].
  destruct (ceil _) as [s|e]; [simpl|reflexivity].
  unfold truediv. rewrite eqb_zero_opp.
  destruct (c =? 0)%float; [reflexivity|]. simpl.
  rewrite div_opp_r, mul_opp_l. reflexivity.
Qed.

(** ** Dates built from calendar fields *)

Section Calendar.

Lemma is_leap_spec (y : Z) :
  is_leap y = true <-> y mod 4 = 0 /\ (y mod 100 <> 0 \/ y mod 400 = 0).
Proof.
  unfold is_leap. rewrite andb_true_iff, orb_true_iff, negb_true_iff.
  rewrite !Z.eqb_eq, Z.eqb_neq. reflexivity.
Qed.

(** The era, the year of the era and the day of the year are recovered
    from the day count they add up to; years begin in March, and the day
    365 only exists before a leap February. *)
Lemma era_day_recovered (era yoe doy : Z) :
  0 <= yoe < 400 -> 0 <= doy <= 365 ->
  (doy = 365 -> (yoe + 1) mod 4 = 0 /\ ((yoe + 1) mod 100 <> 0 \/ yoe = 399)) ->
  let z' := era * 146097 + (yoe * 365 + yoe / 4 - yoe / 100 + doy) in
  let doe := z' - era * 146097 in
  z' / 146097 = era
  /\ (doe - doe / 1460 + doe / 36524 - doe / 146096) / 365 = yoe
  /\ doe - (365 * yoe + yoe / 4 - yoe / 100) = doy.
Proof.
  intros Hy Hd Hleap z' doe.
  assert (Hdoe : doe = yoe * 365 + yoe / 4 - yoe / 100 + doy)
    by (subst doe z'; lia).
  split; [subst z'; Z.div_mod_to_equations; lia|].
  rewrite Hdoe. split; [|lia].
  Z.div_mod_to_equations. lia.
Qed.

(** The civil date of the day count of a date of the calendar is that
    date. *)
Lemma civil_from_days_from_civil (y m d : Z) :
  1 <= m <= 12 -> 1 <= d <= days_in_month y m ->
  civil_from_days (days_from_civil y m d) = (y, m, d).
Proof.
  intros Hm Hd.
  unfold civil_from_days, days_from_civil.
  set (y' := if m <=? 2 then y - 1 else y).
  set (mp := if 2 <? m then m - 3 else m + 9).
  set (era := y' / 400). set (yoe := y' - era * 400).
  set (doy := (153 * mp + 2) / 5 + d - 1).
  assert (Hyoe : 0 <= yoe < 400).
  { subst yoe era. Z.div_mod_to_equations. lia. }
  assert (Hmp : 0 <= mp <= 11 /\ m = (if mp <? 10 then mp + 3 else mp - 9)).
  { subst mp. destruct (Z.ltb_spec 2 m).
    - destruct (Z.ltb_spec (m - 3) 10); lia.
    - destruct (Z.ltb_spec (m + 9) 10); lia. }
  assert (Hdoy : 0 <= doy <= 365
                 /\ (doy = 365 -> (yoe + 1) mod 4 = 0
                                  /\ ((yoe + 1) mod 100 <> 0 \/ yoe = 399))
                 /\ (5 * doy + 2) / 153 = mp
                 /\ doy - (153 * mp + 2) / 5 + 1 = d).
  { assert (Hcases : m = 1 \/ m = 2 \/ m = 3 \/ m = 4 \/ m = 5 \/ m = 6 \/ m = 7
                     \/ m = 8 \/ m = 9 \/ m = 10 \/ m = 11 \/ m = 12) by lia.
    destruct (is_leap y) eqn:Hleap;
      [pose proof (proj1 (is_leap_spec y) Hleap) as Hl
      |assert (Hnl : ~ (y mod 4 = 0 /\ (y mod 100 <> 0 \/ y mod 400 = 0)))
         by (rewrite <- is_leap_spec, Hleap; discriminate)];
      destruct Hcases as [->|[->|[->|[->|[->|[->|[->|[->|[->|[->|[->| ->]]]]]]]]]]];
      subst doy mp yoe era y';
      cbv [days_in_month Z.eqb Pos.eqb orb] in Hd; try rewrite Hleap in Hd;
      cbv [Z.ltb Z.leb Z.compare Pos.compare Pos.compare_cont] in *;
      (split; [Z.div_mod_to_equations; lia|]);
      (split; [Z.div_mod_to_equations; lia|]);
      (split; Z.div_mod_to_equations; lia). }
  destruct Hdoy as (Hrange & Hleap & Hmonth & Hday).
  replace (era * 146097 + (yoe * 365 + yoe / 4 - yoe / 100 + doy)
           - 719468 + 719468)
    with (era * 146097 + (yoe * 365 + yoe / 4 - yoe / 100 + doy)) by lia.
  destruct (era_day_recovered era yoe doy Hyoe Hrange Hleap) as (He & Hy & Hdd).
  cbv zeta in He, Hy, Hdd. rewrite He, Hy, Hdd, Hmonth, Hday.
  destruct Hmp as [Hmp <-].
  f_equal. f_equal.
  subst yoe era y'. destruct (Z.leb_spec m 2); lia.
Qed.

(** The fields of a [datetime] built from fields in range. *)
Lemma mk_datetime_fields (y mo d h mi s us : Z) :
  1 <= mo <= 12 -> 1 <= d <= days_in_month y mo ->
  0 <= h < 24 -> 0 <= mi < 60 -> 0 <= s < 60 -> 0 <= us < 1000000 ->
  year (mk_datetime y mo d h mi s us) = y
  /\ month (mk_datetime y mo d h mi s us) = mo
  /\ day (mk_datetime y mo d h mi s us) = d
  /\ hour (mk_datetime y mo d h mi s us) = h
  /\ minute (mk_datetime y mo d h mi s us) = mi
  /\ second (mk_datetime y mo d h mi s us) = s.
Proof.
  intros Hmo Hd Hh Hmi Hs Hus.
  pose proof (civil_from_days_from_civil y mo d Hmo Hd) as Hcivil.
  unfold year, month, day, hour, minute, second, mk_datetime,
    us_per_day, us_per_second.
  generalize dependent (days_from_civil y mo d). intros days Hcivil.
  assert (Hdays : ((((days * 24 + h) * 60 + mi) * 60 + s) * 1000000 + us)
                  / (86400 * 1000000) = days)
    by (Z.div_mod_to_equations; lia).
  rewrite Hdays, Hcivil. simpl.
  repeat split; Z.div_mod_to_equations; lia.
Qed.

End Calendar.

(** X18: for a [datetime] built from calendar fields in range and an
    adjustment of at most 2^1023 in absolute value, so that line 40
    converts [dt.hour + tz_adjust] to a float without the [OverflowError]
    of an [int] beyond the binary64 range, [datetime_to_exif] returns the
    hour with [tz_adjust] added to it, neither brought back into 0 to 23
    nor carried into the date, the minute and the second, each times 1.0,
    and the date of the fields themselves as year, month and day, the two
    last padded to two digits. *)
Theorem datetime_to_exif_of_fields (y mo d h mi s us tz_adjust : Z) :
  - 2 ^ 1023 <= tz_adjust <= 2 ^ 1023 ->
  1 <= y <= 9999 -> 1 <= mo <= 12 -> 1 <= d <= days_in_month y mo ->
  0 <= h < 24 -> 0 <= mi < 60 -> 0 <= s < 60 -> 0 <= us < 1000000 ->
  datetime_to_exif (mk_datetime y mo d h mi s us) tz_adjust
  = {| timestamp := ((1.0 * float_of_int (h + tz_adjust))%float,
                     (1.0 * float_of_int mi)%float,
                     (1.0 * float_of_int s)%float);
       datestamp := String.append (str y)
                      (String.append ":"
                         (String.append (str02 mo)
                            (String.append ":" (str02 d)))) |}.
Proof.
  intros _ _ Hmo Hd Hh Hmi Hs Hus.
  destruct (mk_datetime_fields y mo d h mi s us Hmo Hd Hh Hmi Hs Hus)
    as (Hy & Hm & Hday & Hhour & Hmin & Hsec).
  unfold datetime_to_exif. rewrite Hy, Hm, Hday, Hhour, Hmin, Hsec.
  reflexivity.
Qed.

Lemma datetime_to_exif_of_fields_witness :
  datetime_to_exif (mk_datetime 2021 8 2 0 30 17 0) (-2)
  = {| timestamp := ((1.0 * float_of_int (0 + -2))%float,
                     (1.0 * float_of_int 30)%float,
                     (1.0 * float_of_int 17)%float);
       datestamp := String.append (str 2021)
                      (String.append ":"
                         (String.append (str02 8)
                            (String.append ":" (str02 2)))) |}.
Proof.
  apply (datetime_to_exif_of_fields 2021 8 2 0 30 17 0 (-2));
    vm_compute; intuition discriminate.
Defined.

(** ** Reading the time of a photograph *)

Section Splitting.

Implicit Types (sep c : ascii) (s t : string).

Lemma split_not_nil sep s : split sep s <> [].
Proof.
  destruct s as [|c s]; simpl; [discriminate|].
  destruct (Ascii.eqb c sep); [discriminate|].
  destruct (split sep s); discriminate.
Qed.


(** A string with the separator is at least two pieces. *)
Lemma split_with_sep sep s :
  In sep (list_ascii_of_string s) ->
  exists p0 p1 pieces, split sep s = p0 :: p1 :: pieces.
Proof.
  induction s as [|c s IH]; simpl; intros Hin; [contradiction|].
  destruct (Ascii.eqb_spec c sep) as [->|Hne].
  - destruct (split sep s) as [|p1 pieces] eqn:Hs;
      [apply split_not_nil in Hs; contradiction|]. eauto.
  - destruct Hin as [Heq|Hin]; [congruence|].
    destruct (IH Hin) as (p0 & p1 & pieces & ->). eauto.
Qed.

(** The pieces of [s + sep + t] are those of [s], then those of [t]. *)
Lemma split_app sep s t :
  split sep (String.append s (String sep t)) = split sep s ++ split sep t.
Proof.
  induction s as [|c s IH]; simpl.
  - rewrite Ascii.eqb_refl. reflexivity.
  - destruct (Ascii.eqb c sep); [rewrite IH; reflexivity|].
    rewrite IH. destruct (split sep s) as [|p pieces] eqn:Hs;
      [apply split_not_nil in Hs; contradiction|]. reflexivity.
Qed.

End Splitting.

(** The value of the docstring of [datetime_to_exif], read. *)
Example read_digitized_example :
  read_digitized int_of_plain_str datetime_checked add_hours_checked
    "2021:08:02 15:19:17" (-2)
  = Got (mk_datetime 2021 8 2 15 19 17 0).
Proof. vm_compute. reflexivity. Qed.



(** X20: only the first two pieces of the value are read: whatever
    follows a second space is ignored. *)
Theorem read_digitized_ignores_what_follows
    (int_of_str : string -> result Z)
    (datetime_new : Z -> Z -> Z -> Z -> Z -> Z -> result Z)
    (add_hours : Z -> Z -> result Z)
    (value rest : string) (timezone_adjustment : Z) :
  In " "%char (list_ascii_of_string value) ->
  read_digitized int_of_str datetime_new add_hours
    (String.append value (String " " rest)) timezone_adjustment
  = read_digitized int_of_str datetime_new add_hours value timezone_adjustment.
Proof.
  intros Hspace. unfold read_digitized. rewrite split_app.
  destruct (split_with_sep " " value Hspace) as (p0 & p1 & pieces & ->).
  reflexivity.
Qed.

Lemma read_digitized_ignores_what_follows_witness :
  read_digitized int_of_plain_str datetime_checked add_hours_checked
    "2021:08:02 15:19:17 +02:00" 0
  = read_digitized int_of_plain_str datetime_checked add_hours_checked
      "2021:08:02 15:19:17" 0.
Proof.
  apply (read_digitized_ignores_what_follows int_of_plain_str datetime_checked
           add_hours_checked "2021:08:02 15:19:17" "+02:00" 0).
  simpl. tauto.
Defined.



(** ** Further witnesses and the attributes of a written image *)

(** The elapsed whole seconds on the one-hour track for a photograph of
    10:15. *)
Lemma seconds_within_a_day_witness :
  seconds (dt_sub (at_ 10 15 0) (at_ 10 0 0))
  = (at_ 10 15 0 - at_ 10 0 0) / us_per_second
  /\ seconds (dt_sub (at_ 11 0 0) (at_ 10 0 0))
     = (at_ 11 0 0 - at_ 10 0 0) / us_per_second
  /\ 0 <= seconds (dt_sub (at_ 10 15 0) (at_ 10 0 0))
     <= seconds (dt_sub (at_ 11 0 0) (at_ 10 0 0))
  /\ 0 < seconds (dt_sub (at_ 11 0 0) (at_ 10 0 0)).
Proof.
  apply (seconds_within_a_day (at_ 10 0 0) (at_ 11 0 0) (at_ 10 15 0));
    vm_compute; intuition discriminate.
Defined.

(** The interpolated point of the track recorded without elevation. *)
Lemma adjust_image_needs_elevation_witness :
  adjust_image Attrs store_set [] (sample 10.5 10.5 None (at_ 10 30 0)) <> Ok [].
Proof.
  apply (adjust_image_needs_elevation Attrs store_set [] []
           (sample 10.5 10.5 None (at_ 10 30 0))).
  reflexivity.
Defined.

(** A point that [interpolate] returns carries the time [dt]. *)
Lemma interpolate_result_time (before after p : GPXTrackPoint) (dt : Z) :
  interpolate before after dt = Ok p -> time p = dt.
Proof.
  unfold interpolate.
  destruct (interpolate_pre before after dt) eqn:Hpre; [|discriminate]. simpl.
  destruct (GPXTrackPoint_eqb before after) eqn:Heq.
  - intros H. injection H as <-.
    apply GPXTrackPoint_eqb_time in Heq. unfold interpolate_pre in Hpre.
    apply andb_true_iff in Hpre. rewrite !Z.leb_le in Hpre. lia.
  - destruct (interpolate_ratio before after dt) as [ratio|]; [|discriminate].
    simpl.
    destruct (interpolate_elevation before after ratio) as [ele|];
      [|discriminate].
    simpl. intros H. injection H as <-. reflexivity.
Qed.

(** X25: with a writer that accepts every value, what is written for a
    photograph is its image followed by the nine attributes of a point
    that [interpolate] returned for the photograph's adjusted time: the
    GPS time and date written are those of the adjusted time of the
    photograph, not of a fix. *)
Theorem written_image_carries_adjusted_time
    (gpx_points : gmap Z (GPXTrackPoint * Path)) (before after exif_dt : Z)
    (photo : Photo (list (string * exif_value)))
    (content : list (string * exif_value)) :
  try_adjust Attrs store_set gpx_points before after exif_dt photo = Ok content ->
  exists pb pa point lat lon ele,
    getitem0 gpx_points before = Ok pb
    /\ getitem0 gpx_points after = Ok pa
    /\ interpolate pb pa exif_dt = Ok point
    /\ gpx_to_exif (latitude point) = Ok lat
    /\ gpx_to_exif (longitude point) = Ok lon
    /\ elevation point = Some ele
    /\ content
       = img photo ++
         [("gps_version_id", VInt 2);
          ("gps_latitude_ref", VStr (latitude_ref (latitude point)));
          ("gps_latitude", VTriple lat);
          ("gps_longitude_ref", VStr (longitude_ref (longitude point)));
          ("gps_longitude", VTriple lon);
          ("gps_altitude_ref", VInt (altitude_ref ele));
          ("gps_altitude", VFloat ele);
          ("gps_timestamp", VTriple (timestamp (datetime_to_exif exif_dt 0)));
          ("gps_datestamp", VStr (datestamp (datetime_to_exif exif_dt 0)))].
Proof.
  unfold try_adjust.
  destruct (getitem0 gpx_points before) as [pb|]; [simpl|discriminate].
  destruct (getitem0 gpx_points after) as [pa|]; [simpl|discriminate].
  destruct (interpolate pb pa exif_dt) as [point|] eqn:Hpoint;
    [simpl|discriminate].
  unfold adjust_image, store_set. simpl.
  destruct (gpx_to_exif (latitude point)) as [lat|] eqn:Hlat;
    [simpl|discriminate].
  destruct (gpx_to_exif (longitude point)) as [lon|] eqn:Hlon;
    [simpl|discriminate].
  destruct (elevation point) as [ele|] eqn:Hele; [simpl|discriminate].
  rewrite (interpolate_result_time pb pa point exif_dt Hpoint).
  rewrite <- !app_assoc. simpl.
  intros H. injection H as <-.
  exists pb, pa, point, lat, lon, ele.
  split; [reflexivity|]. split; [reflexivity|]. split; [exact Hpoint|].
  split; [exact Hlat|]. split; [exact Hlon|]. split; [exact Hele|].
  reflexivity.
Qed.

Lemma written_image_carries_adjusted_time_witness :
  exists pb pa point lat lon ele,
    getitem0 (load_gpx_files one_hour).1 (at_ 10 0 0) = Ok pb
    /\ getitem0 (load_gpx_files one_hour).1 (at_ 11 0 0) = Ok pa
    /\ interpolate pb pa (at_ 10 30 0) = Ok point
    /\ gpx_to_exif (latitude point) = Ok lat
    /\ gpx_to_exif (longitude point) = Ok lon
    /\ elevation point = Some ele
    /\ [("gps_version_id", VInt 2);
        ("gps_latitude_ref", VStr "N");
        ("gps_latitude", VTriple (10.0, 30.0, 0.0)%float);
        ("gps_longitude_ref", VStr "E");
        ("gps_longitude", VTriple (10.0, 30.0, 0.0)%float);
        ("gps_altitude_ref", VInt 0);
        ("gps_altitude", VFloat 255);
        ("gps_timestamp", VTriple (10.0, 30.0, 0.0)%float);
        ("gps_datestamp", VStr "2021:08:02")]
       = img (photo_at "p.jpg" (at_ 10 30 0)) ++
         [("gps_version_id", VInt 2);
          ("gps_latitude_ref", VStr (latitude_ref (latitude point)));
          ("gps_latitude", VTriple lat);
          ("gps_longitude_ref", VStr (longitude_ref (longitude point)));
          ("gps_longitude", VTriple lon);
          ("gps_altitude_ref", VInt (altitude_ref ele));
          ("gps_altitude", VFloat ele);
          ("gps_timestamp",
           VTriple (timestamp (datetime_to_exif (at_ 10 30 0) 0)));
          ("gps_datestamp", VStr (datestamp (datetime_to_exif (at_ 10 30 0) 0)))].
Proof.
  apply (written_image_carries_adjusted_time (load_gpx_files one_hour).1
           (at_ 10 0 0) (at_ 11 0 0) (at_ 10 30 0)
           (photo_at "p.jpg" (at_ 10 30 0))).
  vm_compute. reflexivity.
Defined.

(** ** The run over the files, line 195 and the reading included *)

Section CompleteRunProofs.

Variable int_of_str : string -> result Z.
Variable datetime_new : Z -> Z -> Z -> Z -> Z -> Z -> result Z.
Variable add_hours : Z -> Z -> result Z.
Context {Image : Type}.
Variable img_set : Image -> string -> exif_value -> result Image.

(** The scan finds no pair exactly when the first timestamp lies after
    the query time or every timestamp lies before it. *)
Lemma bracket_miss_iff (used_dts : list Z) (q : Z) :
  (forall b a, bracket used_dts q <> (Some b, Some a))
  <-> (exists u rest, used_dts = u :: rest /\ q < u)
      \/ Forall (fun u => u < q) used_dts.
Proof.
  unfold bracket. split.
  - intros Hmiss.
    destruct (bracket_scan used_dts q None) as [ob [a|]] eqn:Hscan.
    + destruct ob as [b|]; [destruct (Hmiss b a eq_refl)|].
      left. destruct used_dts as [|u rest]; [discriminate|].
      rewrite bracket_scan_cons in Hscan.
      destruct (Z.geb_spec u q) as [Hge|Hlt], (Z.leb_spec u q) as [Hle|Hgt];
        try lia.
      * discriminate.
      * exists u, rest. split; [reflexivity | exact Hgt].
      * pose proof (bracket_scan_before_stays rest q u) as Hstays.
        rewrite Hscan in Hstays. contradiction.
    + right. apply (bracket_scan_no_after used_dts q None).
      rewrite Hscan. reflexivity.
  - intros [(u & rest & -> & Hu) | Hall] b a.
    + rewrite bracket_scan_cons.
      destruct (Z.geb_spec u q); [|lia].
      destruct (Z.leb_spec u q); [lia | discriminate].
    + pose proof (bracket_scan_all_before used_dts q None Hall) as Hnone.
      destruct (bracket_scan used_dts q None) as [ob oa].
      simpl in Hnone. subst oa. discriminate.
Qed.

Lemma without_version_app (xs ys : list (output Image)) :
  without_version Image (xs ++ ys)
  = without_version Image xs ++ without_version Image ys.
Proof. unfold without_version. apply omap_app. Qed.

(** One photograph that is read: lines 190-238 give the output of lines
    212-238 and the two lines before them. *)
Lemma process_opened_read gpx_points used_dts tz (o : Opened Image) version dt :
  exif_version o = Ok version ->
  read_digitized int_of_str datetime_new add_hours (digitized (opened o)) tz
  = Got dt ->
  without_version Image
    (process_opened int_of_str datetime_new add_hours Image img_set
       gpx_points used_dts tz o).1
  = (process_image Image img_set gpx_points used_dts tz
       {| img_file := path (opened o); img := image (opened o);
          datetime_digitized := dt |}).1
  /\ (process_opened int_of_str datetime_new add_hours Image img_set
        gpx_points used_dts tz o).2
     = Raised <$> (process_image Image img_set gpx_points used_dts tz
                     {| img_file := path (opened o); img := image (opened o);
                        datetime_digitized := dt |}).2.
Proof.
  intros Hversion Hread. unfold process_opened, process_image.
  rewrite Hversion, Hread. simpl.
  destruct (bracket used_dts _) as [[b|] [a|]]; try (split; reflexivity).
  destruct (try_adjust _ _ _ _ _ _ _) as [img'|e]; [split; reflexivity|].
  destruct (is_RuntimeError e); split; reflexivity.
Qed.

End CompleteRunProofs.

(** X5: over the files, a photograph is skipped, that is lines 190, 195
    and 222 print their three lines, nothing is written and nothing is
    raised, exactly when its version and its time are read and the first
    timestamp of [used_dts], in the order of insertion, lies after its
    adjusted time or every timestamp lies before it, which includes an
    empty index. *)
Theorem photograph_skipped_iff
    (int_of_str : string -> result Z)
    (datetime_new : Z -> Z -> Z -> Z -> Z -> Z -> result Z)
    (add_hours : Z -> Z -> result Z)
    (Image : Type) (img_set : Image -> string -> exif_value -> result Image)
    (gpx_points : gmap Z (GPXTrackPoint * Path)) (used_dts : list Z)
    (timezone_adjustment : Z) (o : Opened Image) (version : string) :
  process_opened int_of_str datetime_new add_hours Image img_set
    gpx_points used_dts timezone_adjustment o
  = ([Out (PrintProcessingImage (path (opened o)));
      PrintVersion (path (opened o)) version;
      Out (PrintSkipping (path (opened o)))], None)
  <-> exif_version o = Ok version
      /\ exists dt,
           read_digitized int_of_str datetime_new add_hours
             (digitized (opened o)) timezone_adjustment = Got dt
           /\ ((exists u rest,
                  used_dts = u :: rest
                  /\ dt_add dt (timedelta_hours timezone_adjustment) < u)
               \/ Forall (fun u => u < dt_add dt
                                         (timedelta_hours timezone_adjustment))
                    used_dts).
Proof.
  unfold process_opened.
  destruct (exif_version o) as [version'|e].
  2: { split; [discriminate | intros [H _]; discriminate]. }
  destruct (read_digitized _ _ _ _ _) as [dt|e].
  2: { split; [discriminate | intros (_ & dt & H & _); discriminate]. }
  pose proof (bracket_miss_iff used_dts
                (dt_add dt (timedelta_hours timezone_adjustment))) as Hmiss.
  destruct (bracket used_dts _) as [[b|] [a|]]; simpl.
  - split.
    + destruct (try_adjust _ _ _ _ _ _ _) as [img'|e]; [discriminate|].
      destruct (is_RuntimeError e); discriminate.
    + intros (_ & dt' & Hdt & Hcond). injection Hdt as <-.
      destruct (proj2 Hmiss Hcond b a eq_refl).
  - split.
    + intros H. injection H as <-. split; [reflexivity|].
      exists dt. split; [reflexivity|]. apply (proj1 Hmiss). discriminate.
    + intros (H & _). injection H as <-. reflexivity.
  - split.
    + intros H. injection H as <-. split; [reflexivity|].
      exists dt. split; [reflexivity|]. apply (proj1 Hmiss). discriminate.
    + intros (H & _). injection H as <-. reflexivity.
  - split.
    + intros H. injection H as <-. split; [reflexivity|].
      exists dt. split; [reflexivity|]. apply (proj1 Hmiss). discriminate.
    + intros (H & _). injection H as <-. reflexivity.
Qed.

(** X14: when the GPX files hold no point at all, and so when there is
    no GPX file, no run writes a file; and when the version and the time
    of every photograph are read, the run prints the count 0 and the three
    lines of a skip for each photograph and raises nothing. *)
Theorem no_points_every_file_skipped
    (int_of_str : string -> result Z)
    (datetime_new : Z -> Z -> Z -> Z -> Z -> Z -> result Z)
    (add_hours : Z -> Z -> result Z)
    (Image : Type) (img_set : Image -> string -> exif_value -> result Image)
    (gpx_files : list (Path * GPX)) (files : list (Opened Image))
    (stats_file : string) (timezone_adjustment : Z) :
  points_in_order gpx_files = [] ->
  (forall f content,
     Out (WriteFile f content)
     ∉ (adjust_main_files int_of_str datetime_new add_hours Image img_set
          gpx_files files stats_file timezone_adjustment).1)
  /\ (Forall (fun o =>
                (exists version, exif_version o = Ok version)
                /\ exists dt,
                     read_digitized int_of_str datetime_new add_hours
                       (digitized (opened o)) timezone_adjustment = Got dt)
             files ->
      adjust_main_files int_of_str datetime_new add_hours Image img_set
        gpx_files files stats_file timezone_adjustment
      = (Out PrintArgs :: map (fun f => Out (PrintProcessingGPX f.1)) gpx_files
           ++ Out (PrintGPXCount 0) :: concat (map (skip_lines Image) files),
         None)).
Proof.
  intros Hempty. unfold adjust_main_files.
  rewrite load_gpx_files_flat, Hempty. simpl. split.
  - intros f content.
    assert (Hloop : Out (WriteFile f content)
                    ∉ (process_all int_of_str datetime_new add_hours Image
                         img_set ∅ [] timezone_adjustment files).1).
    { induction files as [|o rest IH]; simpl; [apply not_elem_of_nil|].
      assert (Hone : Out (WriteFile f content)
                     ∉ (process_opened int_of_str datetime_new add_hours Image
                          img_set ∅ [] timezone_adjustment o).1).
      { unfold process_opened.
        destruct (exif_version o); simpl;
          [|rewrite not_elem_of_cons; split;
            [discriminate | apply not_elem_of_nil]].
        destruct (read_digitized _ _ _ _ _); simpl;
          rewrite !not_elem_of_cons; repeat split; try discriminate;
          apply not_elem_of_nil. }
      destruct (process_opened _ _ _ _ _ _ _ _ o) as [outs [e|]];
        simpl in *; [exact Hone|].
      destruct (process_all _ _ _ _ _ _ _ _ rest) as [outs' raised].
      simpl in *. rewrite not_elem_of_app. split; assumption. }
    destruct (process_all _ _ _ _ _ _ _ _ files) as [outs raised].
    simpl in *. rewrite not_elem_of_cons, not_elem_of_app, not_elem_of_cons.
    repeat split; try discriminate; [|exact Hloop].
    rewrite list_elem_of_fmap. intros (file & Hfile & _). discriminate.
  - intros Hread.
    assert (Hloop : process_all int_of_str datetime_new add_hours Image
                      img_set ∅ [] timezone_adjustment files
                    = (concat (map (skip_lines Image) files), None)).
    { induction Hread as [|o rest ([version Hv] & [dt Hdt]) _ IH];
        [reflexivity|].
      cbn [process_all map concat]. unfold process_opened at 1, skip_lines at 1.
      rewrite Hv, Hdt. simpl. rewrite IH. reflexivity. }
    rewrite Hloop. reflexivity.
Qed.

Lemma no_points_every_file_skipped_witness :
  (forall f content,
     Out (WriteFile f content)
     ∉ (adjust_main_files int_of_plain_str datetime_checked add_hours_checked
          Attrs store_set [("empty.gpx", {| tracks := [] |})]
          [file_of "p1.jpg" "2021:08:02 10:00:00"] "" 0).1)
  /\ (Forall (fun o =>
                (exists version, exif_version o = Ok version)
                /\ exists dt,
                     read_digitized int_of_plain_str datetime_checked
                       add_hours_checked (digitized (opened o)) 0 = Got dt)
             [file_of "p1.jpg" "2021:08:02 10:00:00"] ->
      adjust_main_files int_of_plain_str datetime_checked add_hours_checked
        Attrs store_set [("empty.gpx", {| tracks := [] |})]
        [file_of "p1.jpg" "2021:08:02 10:00:00"] "" 0
      = (Out PrintArgs
           :: map (fun f => Out (PrintProcessingGPX f.1))
                [("empty.gpx", {| tracks := [] |})]
           ++ Out (PrintGPXCount 0)
           :: concat (map (skip_lines Attrs)
                        [file_of "p1.jpg" "2021:08:02 10:00:00"]),
         None)).
Proof.
  apply (no_points_every_file_skipped int_of_plain_str datetime_checked
           add_hours_checked Attrs store_set
           [("empty.gpx", {| tracks := [] |})]
           [file_of "p1.jpg" "2021:08:02 10:00:00"] "" 0).
  reflexivity.
Defined.

(** X26: for photographs whose version and time are read, the run of
    lines 189-238 prints, besides the line of line 195 for each photograph
    it reaches, exactly what lines 190 and 212-238 print and write for the
    photographs as read, and leaves the loop on the same exception. *)
Theorem complete_run_without_version
    (int_of_str : string -> result Z)
    (datetime_new : Z -> Z -> Z -> Z -> Z -> Z -> result Z)
    (add_hours : Z -> Z -> result Z)
    (Image : Type) (img_set : Image -> string -> exif_value -> result Image)
    (gpx_points : gmap Z (GPXTrackPoint * Path)) (used_dts : list Z)
    (timezone_adjustment : Z) (files : list (Opened Image))
    (photos : list (Photo Image)) :
  Forall2 (fun o photo =>
             (exists version, exif_version o = Ok version)
             /\ read_digitized int_of_str datetime_new add_hours
                  (digitized (opened o)) timezone_adjustment
                = Got (datetime_digitized photo)
             /\ img_file photo = path (opened o)
             /\ img photo = image (opened o))
          files photos ->
  without_version Image
    (process_all int_of_str datetime_new add_hours Image img_set
       gpx_points used_dts timezone_adjustment files).1
  = (process_images Image img_set gpx_points used_dts timezone_adjustment
       photos).1
  /\ (process_all int_of_str datetime_new add_hours Image img_set
        gpx_points used_dts timezone_adjustment files).2
     = Raised <$> (process_images Image img_set gpx_points used_dts
                     timezone_adjustment photos).2.
Proof.
  intros Hread.
  induction Hread as [|o photo files photos ([v Hv] & Hdt & Hf & Hi) _ [IHe IHr]];
    [split; reflexivity|].
  cbn [process_all process_images].
  destruct (process_opened_read int_of_str datetime_new add_hours img_set
              gpx_points used_dts timezone_adjustment o v
              (datetime_digitized photo) Hv Hdt) as [Hevents Hraised].
  destruct photo as [f i t]. simpl in Hf, Hi, Hevents, Hraised. subst f i.
  destruct (process_opened _ _ _ _ _ _ _ _ o) as [outs raised].
  destruct (process_image _ _ _ _ _ _) as [events raised'].
  simpl in Hevents, Hraised. subst events raised.
  destruct raised' as [e|]; simpl; [split; reflexivity|].
  destruct (process_all _ _ _ _ _ _ _ _ files) as [outs' raised].
  destruct (process_images _ _ _ _ _ photos) as [events' raised''].
  simpl in IHe, IHr. subst events' raised. simpl.
  rewrite without_version_app. split; reflexivity.
Qed.

Lemma complete_run_without_version_witness :
  without_version Attrs
    (process_all int_of_plain_str datetime_checked add_hours_checked
       Attrs store_set (load_gpx_files one_hour).1 (load_gpx_files one_hour).2 0
       [file_of "p.jpg" "2021:08:02 10:30:00"]).1
  = (process_images Attrs store_set (load_gpx_files one_hour).1
       (load_gpx_files one_hour).2 0 [photo_at "p.jpg" (at_ 10 30 0)]).1
  /\ (process_all int_of_plain_str datetime_checked add_hours_checked
        Attrs store_set (load_gpx_files one_hour).1
        (load_gpx_files one_hour).2 0
        [file_of "p.jpg" "2021:08:02 10:30:00"]).2
     = Raised <$> (process_images Attrs store_set (load_gpx_files one_hour).1
                     (load_gpx_files one_hour).2 0
                     [photo_at "p.jpg" (at_ 10 30 0)]).2.
Proof.
  apply (complete_run_without_version int_of_plain_str datetime_checked
           add_hours_checked Attrs store_set
           (load_gpx_files one_hour).1 (load_gpx_files one_hour).2 0
           [file_of "p.jpg" "2021:08:02 10:30:00"]
           [photo_at "p.jpg" (at_ 10 30 0)]).
  constructor; [|constructor].
  split; [exists "0232"; reflexivity|].
  split; [vm_compute; reflexivity|]. split; reflexivity.
Defined.

(** ** The guard for the identical sample *)

Lemma float_same_refl (x : float) : float_same x x = true.
Proof.
  unfold float_same.
  rewrite (proj2 (FloatAxioms.Leibniz.eqb_spec x x) eq_refl). reflexivity.
Qed.

Lemma option_eqb_refl {A : Type} (eqb : A -> A -> bool) (x : option A) :
  (forall a, eqb a a = true) -> option_eqb eqb x x = true.
Proof. intros Hrefl. destruct x; simpl; auto. Qed.

(** Every sample equals itself, a NaN among its fields or not. *)
Lemma GPXTrackPoint_eqb_refl (p : GPXTrackPoint) : GPXTrackPoint_eqb p p = true.
Proof.
  unfold GPXTrackPoint_eqb.
  rewrite !float_same_refl, Z.eqb_refl.
  rewrite !(option_eqb_refl float_same) by apply float_same_refl.
  rewrite !(option_eqb_refl String.eqb) by apply String.eqb_refl.
  reflexivity.
Qed.

(** X27: for every sample, [interpolate(sample, sample, dt)] returns the
    sample itself, unchanged and without a division, when [dt] is the time
    of the sample, and raises [AssertionError] for every other [dt]. *)
Theorem interpolate_same_sample (p : GPXTrackPoint) (dt : Z) :
  (dt = time p -> interpolate p p dt = Ok p)
  /\ (dt <> time p ->
      exists msg, interpolate p p dt = Raise (Exn AssertionError msg)).
Proof.
  unfold interpolate, interpolate_pre. split.
  - intros ->. rewrite Z.leb_refl, GPXTrackPoint_eqb_refl. reflexivity.
  - intros Hne. exists "before <= dt <= after".
    destruct (Z.leb_spec (time p) dt), (Z.leb_spec dt (time p));
      try reflexivity. lia.
Qed.

Lemma interpolate_same_sample_witness :
  interpolate sea_level sea_level (at_ 10 0 0) = Ok sea_level.
Proof.
  apply (proj1 (interpolate_same_sample sea_level (at_ 10 0 0))). reflexivity.
Defined.
